(** * The MLX inference server: a shallow embedding of [src/mlx_api]

    The development follows the three source files:
    - [models.py]   the pydantic request and response models,
    - [config.py]   the resolved settings,
    - [server.py]   the process-wide [ModelState], the [lifespan] hook and the
                    three endpoints [/health], [/stats] and [/generate].

    Conventions of the embedding.
    - Python [int] is [Z]; Python [float] (clock readings, temperatures) is
      read as an exact rational [Q]: rounding of binary floats is not modelled.
    - The model runtime ([mlx_lm.load], [mlx_lm.generate], the tokenizer's
      [apply_chat_template] and [encode]) is an external collaborator.  A call
      into it is described by what it did: how long it ran and whether it
      returned a value or raised.  What it raises may be an [HTTPException],
      another [Exception], or a [BaseException] that is no [Exception]; the
      [except] clauses of the server treat the three differently.
    - Each call into the runtime is made through one wrapper that records it
      in the trace with the arguments it hands over, so the trace shows what
      the runtime was applied to.
    - The framework around the handler is modelled as far as the handler's
      result depends on it: validation of the body before the handler, and
      after it the serialisation of the returned object, which may fail, and
      the mapping of exceptions to replies.
    - The handlers are written in a small state-and-exception monad over a
      [World]: the module-level [state] object, the wall clock, and the trace
      of calls made into the runtime.  The clock advances only while a call
      into the runtime runs; the handler's own statements take no time.
    - [generate_response] is an [async def] without any [await], so a request
      runs to completion without interleaving: sequential state passing is
      exact for it. *)

From Stdlib Require Import ZArith QArith Qround String List Bool Lia.
From Stdlib Require Import DecimalString.
Import ListNotations.

Local Open Scope Z_scope.

(** ** Python values *)

Module Py.

(** The exceptions the [except] clauses tell apart: [fastapi.HTTPException];
    any other subclass of [Exception], kept with its [str()]; and a
    [BaseException] that is not an [Exception] ([SystemExit],
    [KeyboardInterrupt], a panic of the tokenizer's native code), which
    [except Exception] does not catch. *)
Inductive exn : Type :=
| HTTPException (status_code : Z) (detail : string)
| Exception (message : string)
| BaseException (message : string).

(** [str(n)] for an [int], as an f-string renders it. *)
Definition str_int (n : Z) : string := NilZero.string_of_int (Z.to_int n).

(** [str(e)], as an f-string renders a caught exception: an [HTTPException]
    prints as its status code, a colon and its detail. *)
Definition str_exn (e : exn) : string :=
  match e with
  | HTTPException c d => (str_int c ++ ": " ++ d)%string
  | Exception m => m
  | BaseException m => m
  end.

(** [int(x)] on a float: truncation toward zero. *)
Definition int (x : Q) : Z :=
  if Qle_bool 0 x then Qfloor x else Qceiling x.

(** Truthiness of a float: everything but zero. *)
Definition truthy (x : Q) : bool := negb (Qeq_bool x 0).

End Py.

(** ** models.py *)

Module Message.
Record t : Type := mk { role : string; content : string }.
End Message.

Module GenerateRequest.
Record t : Type := mk {
  messages : list Message.t;
  max_tokens : Z;
  temperature : Q;
  top_p : Q
}.

(** The JSON body before validation: [messages] is required ([Field(...)]),
    the three numeric fields are optional and carry defaults.  [messages] is
    [None] when the field is absent; an element of the list is [Some m] when
    it validates as the [Message] [m] (an object with a string [role] and a
    string [content]) and [None] when it does not. *)
Record body : Type := mk_body {
  body_messages : option (list (option Message.t));
  body_max_tokens : option Z;
  body_temperature : option Q;
  body_top_p : option Q
}.

Definition default_max_tokens : Z := 512.
Definition default_temperature : Q := 7 # 10.
Definition default_top_p : Q := 9 # 10.

(** [Field(ge=lo, le=hi)] on an [int] and on a [float]. *)
Definition int_in (lo hi v : Z) : bool := (lo <=? v) && (v <=? hi).
Definition float_in (lo hi v : Q) : bool := Qle_bool lo v && Qle_bool v hi.

Definition with_default {A} (d : A) (o : option A) : A :=
  match o with Some v => v | None => d end.

(** The elements of a list when every one validates as a [Message]. *)
Fixpoint all_messages (raw : list (option Message.t)) : option (list Message.t) :=
  match raw with
  | [] => Some []
  | Some m :: rest =>
      match all_messages rest with
      | Some ms => Some (m :: ms)
      | None => None
      end
  | None :: _ => None
  end.

(** [messages: list[Message]]: present, and every element a [Message]. *)
Definition validated_messages (b : body) : option (list Message.t) :=
  match body_messages b with
  | Some raw => all_messages raw
  | None => None
  end.

(** The fields validation reports, in field order.  [messages] has no
    constraint on its length, and [Message.role] is a plain [str]. *)
Definition errors (b : body) : list string :=
  (match validated_messages b with None => ["messages"%string] | Some _ => [] end)
  ++ (if int_in 1 2048 (with_default default_max_tokens (body_max_tokens b))
      then [] else ["max_tokens"%string])
  ++ (if float_in 0 2 (with_default default_temperature (body_temperature b))
      then [] else ["temperature"%string])
  ++ (if float_in 0 1 (with_default default_top_p (body_top_p b))
      then [] else ["top_p"%string]).

(** Model validation: the request object, or the list of failing fields. *)
Definition validate (b : body) : list string + t :=
  match errors b, validated_messages b with
  | [], Some ms =>
      inr (mk ms
             (with_default default_max_tokens (body_max_tokens b))
             (with_default default_temperature (body_temperature b))
             (with_default default_top_p (body_top_p b)))
  | errs, _ => inl errs
  end.
End GenerateRequest.

Module GenerateResponse.
Record t : Type := mk {
  response : string;
  tokens_generated : Z;
  generation_time_ms : Z;
  model : string
}.
End GenerateResponse.

Module HealthResponse.
Record t : Type := mk {
  status : string;
  model : string;
  model_loaded : bool;
  uptime_seconds : Q
}.
End HealthResponse.

(** ** config.py *)

Module Config.
Record t : Type := mk {
  model_id : string;
  host : string;
  port : Z;
  default_max_tokens : Z;
  default_temperature : Q;
  default_top_p : Q;
  max_input_tokens : Z;
  max_output_tokens : Z;
  request_timeout : Z
}.

(** The settings when no environment variable is set. *)
Definition defaults : t :=
  mk "mlx-community/Llama-3.2-3B-Instruct-4bit" "0.0.0.0" 8000
     512 (7 # 10) (9 # 10)
     2048 1024 60.

Definition with_request_timeout (c : t) (seconds : Z) : t :=
  mk (model_id c) (host c) (port c)
     (default_max_tokens c) (default_temperature c) (default_top_p c)
     (max_input_tokens c) (max_output_tokens c) seconds.
End Config.

(** ** The model runtime (mlx_lm), seen from the server *)

Module Runtime.

(** What one call into the runtime did. *)
Record ran (A : Type) : Type := mk_ran {
  took : Q;               (* seconds of wall clock the call consumed *)
  gave : Py.exn + A       (* raised, or returned *)
}.
Arguments mk_ran {A}.
Arguments took {A}.
Arguments gave {A}.

Definition returns {A} (seconds : Q) (v : A) : ran A := mk_ran seconds (inr v).
Definition raises {A} (seconds : Q) (e : Py.exn) : ran A := mk_ran seconds (inl e).

(** The tokenizer object with the two methods the server calls.
    [apply_chat_template] is always called with [add_generation_prompt=True]
    and [tokenize=False], so it yields the prompt text. *)
Record Tokenizer : Type := mk_tokenizer {
  apply_chat_template : list (string * string) -> ran string;
  encode : string -> ran (list Z)
}.

(** The model object, known to the server only through
    [generate(model, tokenizer, prompt, max_tokens, temp, top_p)]. *)
Record Model : Type := mk_model {
  generate : Tokenizer -> string -> Z -> Q -> Q -> ran string
}.

(** The calls the server can make, as they appear in the trace. *)
Inductive call : Type :=
| LoadModel (model_id : string)
| ApplyChatTemplate (messages : list (string * string))
| Encode (text : string)
| Generate (prompt : string) (max_tokens : Z) (temp top_p : Q).

Record event : Type := mk_event {
  what : call;
  began : Q;
  ended : Q
}.

Definition is_generate (e : event) : bool :=
  match what e with Generate _ _ _ _ => true | _ => false end.

End Runtime.

(** ** server.py: the global state *)

Module ModelState.
Record t : Type := mk {
  model : option Runtime.Model;
  tokenizer : option Runtime.Tokenizer;
  model_id : string;
  load_time : Q;
  start_time : Q;
  request_count : Z;
  total_tokens_generated : Z
}.

(** The class attributes' initial values. *)
Definition initial : t := mk None None "" 0 0 0 0.
End ModelState.

Record World : Type := mk_world {
  state : ModelState.t;
  clock : Q;
  trace : list Runtime.event
}.

(** ** The handler monad: state and exceptions over a [World] *)

Definition M (A : Type) : Type := World -> (Py.exn + A) * World.

Definition ret {A} (a : A) : M A := fun w => (inr a, w).

Definition bind {A B} (m : M A) (k : A -> M B) : M B :=
  fun w =>
    match m w with
    | (inr a, w') => k a w'
    | (inl e, w') => (inl e, w')
    end.

Definition raise {A} (e : Py.exn) : M A := fun w => (inl e, w).

(** [try: body / except HTTPException: raise / except Exception as e: h e]. *)
Definition try_except {A} (body : M A) (h : string -> M A) : M A :=
  fun w =>
    match body w with
    | (inr a, w') => (inr a, w')
    | (inl (Py.HTTPException c d), w') => (inl (Py.HTTPException c d), w')
    | (inl (Py.Exception m), w') => h m w'
    | (inl (Py.BaseException m), w') => (inl (Py.BaseException m), w')
    end.

(** [try: body / except Exception as e: h e], with no clause of its own for
    [HTTPException]: it is an [Exception] like any other. *)
Definition try_except_any {A} (body : M A) (h : Py.exn -> M A) : M A :=
  fun w =>
    match body w with
    | (inr a, w') => (inr a, w')
    | (inl (Py.BaseException m), w') => (inl (Py.BaseException m), w')
    | (inl e, w') => h e w'
    end.

Notation "x <- c ;; k" := (bind c (fun x => k))
  (at level 61, c at next level, right associativity).
Notation "c ;;; k" := (bind c (fun _ => k))
  (at level 61, right associativity).

Definition get_state : M ModelState.t := fun w => (inr (state w), w).

Definition put_state (s : ModelState.t) : M unit :=
  fun w => (inr tt, mk_world s (clock w) (trace w)).

(** [time.time()]. *)
Definition time_time : M Q := fun w => (inr (clock w), w).

(** One call into the runtime: the clock moves by the time the call took,
    the call is appended to the trace, and its outcome is returned or raised. *)
Definition invoke {A} (c : Runtime.call) (r : Runtime.ran A) : M A :=
  fun w =>
    let t' := (clock w + Runtime.took r)%Q in
    (Runtime.gave r,
     mk_world (state w) t' (trace w ++ [Runtime.mk_event c (clock w) t'])).

(** ** server.py: lifespan, /health, /stats, /generate *)

Module Server.

Import Runtime.

Local Open Scope string_scope.

(** In-place updates of the global [state] object. *)
Definition set_loaded (mdl : Model) (tok : Tokenizer) (s : ModelState.t) : ModelState.t :=
  ModelState.mk (Some mdl) (Some tok) (ModelState.model_id s)
    (ModelState.load_time s) (ModelState.start_time s)
    (ModelState.request_count s) (ModelState.total_tokens_generated s).

Definition set_model_id (id : string) (s : ModelState.t) : ModelState.t :=
  ModelState.mk (ModelState.model s) (ModelState.tokenizer s) id
    (ModelState.load_time s) (ModelState.start_time s)
    (ModelState.request_count s) (ModelState.total_tokens_generated s).

Definition set_load_time (t : Q) (s : ModelState.t) : ModelState.t :=
  ModelState.mk (ModelState.model s) (ModelState.tokenizer s) (ModelState.model_id s)
    t (ModelState.start_time s)
    (ModelState.request_count s) (ModelState.total_tokens_generated s).

Definition set_start_time (t : Q) (s : ModelState.t) : ModelState.t :=
  ModelState.mk (ModelState.model s) (ModelState.tokenizer s) (ModelState.model_id s)
    (ModelState.load_time s) t
    (ModelState.request_count s) (ModelState.total_tokens_generated s).

Definition clear_model (s : ModelState.t) : ModelState.t :=
  ModelState.mk None None (ModelState.model_id s)
    (ModelState.load_time s) (ModelState.start_time s)
    (ModelState.request_count s) (ModelState.total_tokens_generated s).

(** [state.request_count += 1] *)
Definition incr_request_count (s : ModelState.t) : ModelState.t :=
  ModelState.mk (ModelState.model s) (ModelState.tokenizer s) (ModelState.model_id s)
    (ModelState.load_time s) (ModelState.start_time s)
    (ModelState.request_count s + 1) (ModelState.total_tokens_generated s).

(** [state.total_tokens_generated += n] *)
Definition add_tokens_generated (n : Z) (s : ModelState.t) : ModelState.t :=
  ModelState.mk (ModelState.model s) (ModelState.tokenizer s) (ModelState.model_id s)
    (ModelState.load_time s) (ModelState.start_time s)
    (ModelState.request_count s) (ModelState.total_tokens_generated s + n).

Definition modify (f : ModelState.t -> ModelState.t) : M unit :=
  s <- get_state ;; put_state (f s).

(** [len(xs)] *)
Definition len {A} (xs : list A) : Z := Z.of_nat (length xs).

(** The four calls the server makes into the runtime.  Each is recorded in
    the trace with the very arguments it hands over. *)
Definition call_load (load : string -> ran (Model * Tokenizer)) (model_id : string)
  : M (Model * Tokenizer) :=
  invoke (LoadModel model_id) (load model_id).

Definition call_apply_chat_template (tok : Tokenizer) (messages : list (string * string))
  : M string :=
  invoke (ApplyChatTemplate messages) (apply_chat_template tok messages).

Definition call_encode (tok : Tokenizer) (text : string) : M (list Z) :=
  invoke (Encode text) (encode tok text).

Definition call_generate (mdl : Model) (tok : Tokenizer) (prompt : string)
    (max_tokens : Z) (temp top_p : Q) : M string :=
  invoke (Generate prompt max_tokens temp top_p)
         (generate mdl tok prompt max_tokens temp top_p).

Section WithConfig.

Variable config : Config.t.

(** *** [lifespan] *)

(** The part of [lifespan] before [yield]. *)
Definition lifespan_startup (load : string -> ran (Model * Tokenizer)) : M unit :=
  load_start <- time_time ;;
  try_except_any
    (loaded <- call_load load (Config.model_id config) ;;
     modify (set_loaded (fst loaded) (snd loaded)) ;;;
     modify (set_model_id (Config.model_id config)) ;;;
     now <- time_time ;;
     modify (set_load_time (now - load_start)%Q) ;;;
     now' <- time_time ;;
     modify (set_start_time now'))
    (fun e => raise (Py.Exception ("Model loading failed: " ++ Py.str_exn e))).

(** The part of [lifespan] after [yield]. *)
Definition lifespan_shutdown : M unit := modify clear_model.

(** *** [GET /health] *)

Definition health_check : M HealthResponse.t :=
  s <- get_state ;;
  now <- time_time ;;
  ret (HealthResponse.mk
         (match ModelState.model s with Some _ => "healthy" | None => "unhealthy" end)
         (ModelState.model_id s)
         (match ModelState.model s with Some _ => true | None => false end)
         (if Py.truthy (ModelState.start_time s)
          then (now - ModelState.start_time s)%Q
          else 0%Q)).

(** *** [GET /stats] *)

Record stats : Type := mk_stats {
  stats_model : string;
  model_load_time_seconds : Q;
  uptime_seconds : Q;
  total_requests : Z;
  total_tokens_generated : Z
}.

Definition get_stats : M stats :=
  s <- get_state ;;
  now <- time_time ;;
  ret (mk_stats
         (ModelState.model_id s)
         (ModelState.load_time s)
         (now - ModelState.start_time s)%Q
         (ModelState.request_count s)
         (ModelState.total_tokens_generated s)).

(** *** [POST /generate] *)

Definition model_not_loaded : Py.exn :=
  Py.HTTPException 503 "Model not loaded. Server is starting up.".

Definition input_too_long (input_tokens : Z) : Py.exn :=
  Py.HTTPException 400
    ("Input too long: " ++ Py.str_int input_tokens
     ++ " tokens (max: " ++ Py.str_int (Config.max_input_tokens config) ++ ")").

Definition generation_failed (message : string) : Py.exn :=
  Py.HTTPException 500 ("Generation failed: " ++ message).

(** The body of the [try] block, with the clock reading taken before it. *)
Definition generate_body (mdl : Model) (tok : Tokenizer)
    (request : GenerateRequest.t) (start_time : Q) : M GenerateResponse.t :=
  let messages :=
    map (fun m => (Message.role m, Message.content m))
        (GenerateRequest.messages request) in
  prompt <- call_apply_chat_template tok messages ;;
  encoded <- call_encode tok prompt ;;
  let input_tokens := len encoded in
  if input_tokens >? Config.max_input_tokens config
  then raise (input_too_long input_tokens)
  else
    let max_tokens :=
      Z.min (GenerateRequest.max_tokens request) (Config.max_output_tokens config) in
    let temp := GenerateRequest.temperature request in
    let top_p := GenerateRequest.top_p request in
    response_text <- call_generate mdl tok prompt max_tokens temp top_p ;;
    now <- time_time ;;
    let elapsed_ms := Py.int ((now - start_time) * 1000)%Q in
    encoded' <- call_encode tok response_text ;;
    let tokens_generated := len encoded' in
    modify (add_tokens_generated tokens_generated) ;;;
    s <- get_state ;;
    ret (GenerateResponse.mk response_text tokens_generated elapsed_ms
           (ModelState.model_id s)).

Definition generate_response (request : GenerateRequest.t) : M GenerateResponse.t :=
  s <- get_state ;;
  match ModelState.model s, ModelState.tokenizer s with
  | Some mdl, Some tok =>
      start_time <- time_time ;;
      modify incr_request_count ;;;
      try_except
        (generate_body mdl tok request start_time)
        (fun message => raise (generation_failed message))
  | _, _ => raise model_not_loaded
  end.

(** *** The application around the handler *)

(** What becomes of a request to [POST /generate]. *)
Inductive reply : Type :=
| Returned (body : GenerateResponse.t)            (* 200 *)
| Refused (status_code : Z) (detail : string)     (* an [HTTPException] *)
| Unprocessable (fields : list string)            (* the body failed validation: 422 *)
| Unhandled (detail : string)                     (* [global_exception_handler]: 500 *)
| Escaped (message : string).                     (* an exception no handler caught *)

(** The status the client sees.  An exception that leaves the application
    before a response has started is answered 500 by the server itself. *)
Definition status_code_of (r : reply) : Z :=
  match r with
  | Returned _ => 200
  | Refused c _ => c
  | Unprocessable _ => 422
  | Unhandled _ => 500
  | Escaped _ => 500
  end.

(** [global_exception_handler], registered for [Exception]: 500 with
    [str(exc)] as detail. *)
Definition global_exception_handler (exc : string) : reply := Unhandled exc.

(** The framework's serialisation of the object the handler returned
    ([response_model=GenerateResponse]): [None] when it succeeds, [Some m] when
    it raises an exception whose [str()] is [m].  It runs after the handler
    has returned, outside its [try] block. *)
Variable serialise : GenerateResponse.t -> option string.

(** What the framework makes of the way the handler ended. *)
Definition answer (outcome : Py.exn + GenerateResponse.t) : reply :=
  match outcome with
  | inr response =>
      match serialise response with
      | None => Returned response
      | Some message => global_exception_handler message
      end
  | inl (Py.HTTPException c d) => Refused c d
  | inl (Py.Exception m) => global_exception_handler m
  | inl (Py.BaseException m) => Escaped m
  end.

(** The framework validates the body against [GenerateRequest] before the
    handler is entered, and answers for the handler once it has ended. *)
Definition post_generate (b : GenerateRequest.body) (w : World) : reply * World :=
  match GenerateRequest.validate b with
  | inl fields => (Unprocessable fields, w)
  | inr request =>
      let (outcome, w') := generate_response request w in
      (answer outcome, w')
  end.

End WithConfig.

End Server.

(** ** The paths through [generate_response] *)

Module Paths.

Import Runtime Server.

(** The readiness gate, as a boolean on the state. *)
Definition ready (s : ModelState.t) : bool :=
  match ModelState.model s, ModelState.tokenizer s with
  | Some _, Some _ => true
  | _, _ => false
  end.

(** The world once the gate is passed: the request has been counted. *)
Definition entered (w : World) : World :=
  mk_world (incr_request_count (state w)) (clock w) (trace w).

(** The world after a call into the runtime that ran for [d] seconds. *)
Definition advance (c : call) (d : Q) (w : World) : World :=
  mk_world (state w) (clock w + d)%Q
           (trace w ++ [mk_event c (clock w) (clock w + d)%Q]).

(** The world once the generated tokens have been accounted for. *)
Definition accounted (n : Z) (w : World) : World :=
  mk_world (add_tokens_generated n (state w)) (clock w) (trace w).

(** What the two [except] clauses make of an exception. *)
Definition translated (e : Py.exn) : Py.exn :=
  match e with
  | Py.HTTPException c d => Py.HTTPException c d
  | Py.Exception m => generation_failed m
  | Py.BaseException m => Py.BaseException m
  end.

Definition messages_of (request : GenerateRequest.t) : list (string * string) :=
  map (fun m => (Message.role m, Message.content m)) (GenerateRequest.messages request).

Definition clamped (config : Config.t) (request : GenerateRequest.t) : Z :=
  Z.min (GenerateRequest.max_tokens request) (Config.max_output_tokens config).

Section Handled.

Variable config : Config.t.
Variable request : GenerateRequest.t.
Variable w : World.
Variable mdl : Model.
Variable tok : Tokenizer.

Definition rendering : ran string := apply_chat_template tok (messages_of request).

Definition rendered : World :=
  advance (ApplyChatTemplate (messages_of request)) (took rendering) (entered w).

Definition counting (prompt : string) : ran (list Z) := encode tok prompt.

Definition counted (prompt : string) : World :=
  advance (Encode prompt) (took (counting prompt)) rendered.

Definition generate_call (prompt : string) : call :=
  Generate prompt (clamped config request)
           (GenerateRequest.temperature request) (GenerateRequest.top_p request).

Definition generating (prompt : string) : ran string :=
  generate mdl tok prompt (clamped config request)
           (GenerateRequest.temperature request) (GenerateRequest.top_p request).

Definition generated (prompt : string) : World :=
  advance (generate_call prompt) (took (generating prompt)) (counted prompt).

Definition recounted (prompt text : string) : World :=
  advance (Encode text) (took (counting text)) (generated prompt).

(** The six ways a request can go once the gate is passed, with the
    outcome and the world each leaves behind. *)
Inductive handled : Py.exn + GenerateResponse.t -> World -> Prop :=
| RenderRaised e :
    gave rendering = inl e ->
    handled (inl (translated e)) rendered
| CountRaised prompt e :
    gave rendering = inr prompt ->
    gave (counting prompt) = inl e ->
    handled (inl (translated e)) (counted prompt)
| TooLong prompt encoded :
    gave rendering = inr prompt ->
    gave (counting prompt) = inr encoded ->
    len encoded > Config.max_input_tokens config ->
    handled (inl (input_too_long config (len encoded))) (counted prompt)
| GenerateRaised prompt encoded e :
    gave rendering = inr prompt ->
    gave (counting prompt) = inr encoded ->
    len encoded <= Config.max_input_tokens config ->
    gave (generating prompt) = inl e ->
    handled (inl (translated e)) (generated prompt)
| RecountRaised prompt encoded text e :
    gave rendering = inr prompt ->
    gave (counting prompt) = inr encoded ->
    len encoded <= Config.max_input_tokens config ->
    gave (generating prompt) = inr text ->
    gave (counting text) = inl e ->
    handled (inl (translated e)) (recounted prompt text)
| Completed prompt encoded text encoded' :
    gave rendering = inr prompt ->
    gave (counting prompt) = inr encoded ->
    len encoded <= Config.max_input_tokens config ->
    gave (generating prompt) = inr text ->
    gave (counting text) = inr encoded' ->
    handled
      (inr (GenerateResponse.mk text (len encoded')
              (Py.int ((clock (generated prompt) - clock w) * 1000)%Q)
              (ModelState.model_id (state w))))
      (accounted (len encoded') (recounted prompt text)).

End Handled.

(** ** Observations on a world *)

(** The two counters of the global state. *)
Definition requests (w : World) : Z := ModelState.request_count (state w).
Definition tokens (w : World) : Z := ModelState.total_tokens_generated (state w).

(** The calls a world's trace records, oldest first. *)
Definition calls (w : World) : list call := map what (trace w).

(** Seconds of wall clock a recorded call ran for. *)
Definition lasted (ev : event) : Q := (ended ev - began ev)%Q.

End Paths.

(** ** A model runtime double *)

Module Stub.

Import Runtime.

Local Open Scope string_scope.

(** The chat template: every message as [role: content|], then the cue for
    the assistant's turn. *)
Definition template (messages : list (string * string)) : string :=
  String.concat "" (map (fun m => fst m ++ ": " ++ snd m ++ "|") messages)
  ++ "assistant: ".

(** [per_char] tokens for every character of the text. *)
Definition tokens (per_char : nat) (text : string) : list Z :=
  flat_map (fun c => repeat (Z.of_nat (Ascii.nat_of_ascii c)) per_char)
           (list_ascii_of_string text).

Definition tokenizer (render_seconds encode_seconds : Q) (per_char : nat) : Tokenizer :=
  mk_tokenizer (fun messages => returns render_seconds (template messages))
               (fun text => returns encode_seconds (tokens per_char text)).

(** A model that answers every prompt with the same text. *)
Definition echo (seconds : Q) (text : string) : Model :=
  mk_model (fun _ _ _ _ _ => returns seconds text).

(** A model whose generation raises. *)
Definition broken (seconds : Q) (e : Py.exn) : Model :=
  mk_model (fun _ _ _ _ _ => raises seconds e).

(** A server that loaded [mdl] and [tok] at [1700000000] and has served
    nothing yet, observed at clock [now]. *)
Definition serving (mdl : Model) (tok : Tokenizer) (now : Q) : World :=
  mk_world (ModelState.mk (Some mdl) (Some tok) "stub-model" 2 1700000000 0 0) now [].

(** A server whose model was never loaded. *)
Definition starting (now : Q) : World := mk_world ModelState.initial now [].

Definition hello (max_tokens : Z) : GenerateRequest.t :=
  GenerateRequest.mk
    [Message.mk "system" "You are a helpful assistant."; Message.mk "user" "Hello"]
    max_tokens (7 # 10) (9 # 10).

Definition hello_body (max_tokens : option Z) (temperature top_p : option Q)
  : GenerateRequest.body :=
  GenerateRequest.mk_body
    (Some [Some (Message.mk "system" "You are a helpful assistant.");
           Some (Message.mk "user" "Hello")])
    max_tokens temperature top_p.

(** A model that answers with the [max_tokens] it was handed, in decimal. *)
Definition parrot (seconds : Q) : Model :=
  mk_model (fun _ _ max_tokens _ _ => returns seconds (Py.str_int max_tokens)).

(** The same, but only up to a limit: beyond it the answer is ["!"]. *)
Definition parrot_up_to (limit : Z) (seconds : Q) : Model :=
  mk_model (fun _ _ max_tokens _ _ =>
              returns seconds (if (max_tokens <=? limit)%Z
                               then Py.str_int max_tokens else "!")).

(** A tokenizer whose chat template raises. *)
Definition no_template (e : Py.exn) : Tokenizer :=
  mk_tokenizer (fun _ => raises 0 e) (fun text => returns 0 (tokens 1 text)).

(** Serialisation that always succeeds, and one that fails on every response. *)
Definition serialises : GenerateResponse.t -> option string := fun _ => None.

Definition unserialisable (message : string) : GenerateResponse.t -> option string :=
  fun _ => Some message.

End Stub.

(** ** A run of the server *)

Module Session.

Import Runtime Server Paths.

(** No handler awaits, so the requests that reach [/generate] are served one
    after another, each on the world the one before left behind. *)
Fixpoint serve (config : Config.t) (serialise : GenerateResponse.t -> option string)
    (bodies : list GenerateRequest.body) (w : World) : list reply * World :=
  match bodies with
  | [] => ([], w)
  | body :: rest =>
      let (r, w1) := post_generate config serialise body w in
      let (rs, w2) := serve config serialise rest w1 in
      (r :: rs, w2)
  end.

(** Did the reply come out of the handler, rather than out of validation? *)
Definition from_handler (r : reply) : bool :=
  match r with
  | Unprocessable _ => false
  | _ => true
  end.

(** The tokens a reply reports. *)
Definition reply_tokens (r : reply) : Z :=
  match r with
  | Returned body => GenerateResponse.tokens_generated body
  | _ => 0
  end.

Definition total (xs : list Z) : Z := fold_right Z.add 0 xs.

(** The part of the global state that only [lifespan] writes. *)
Definition same_runtime (s s' : ModelState.t) : Prop :=
  ModelState.model s' = ModelState.model s /\
  ModelState.tokenizer s' = ModelState.tokenizer s /\
  ModelState.model_id s' = ModelState.model_id s /\
  ModelState.load_time s' = ModelState.load_time s /\
  ModelState.start_time s' = ModelState.start_time s.

(** A tokenizer and a model that raise no [HTTPException] of their own, as
    code that knows nothing of the web framework does. *)
Definition plain_tokenizer (tok : Tokenizer) : Prop :=
  (forall messages c d,
      gave (apply_chat_template tok messages) <> inl (Py.HTTPException c d)) /\
  (forall text c d,
      gave (encode tok text) <> inl (Py.HTTPException c d)).

Definition plain_model (mdl : Model) : Prop :=
  forall tok prompt m t p c d,
    gave (generate mdl tok prompt m t p) <> inl (Py.HTTPException c d).

Definition is_load (c : call) : bool :=
  match c with LoadModel _ => true | _ => false end.

Definition is_generate_call (c : call) : bool :=
  match c with Generate _ _ _ _ => true | _ => false end.

(** Was serialisation the step that failed? *)
Definition is_unhandled (r : reply) : bool :=
  match r with Unhandled _ => true | _ => false end.

(** The world with another model loaded in place of the one it holds. *)
Definition with_model (mdl : Model) (w : World) : World :=
  mk_world
    (ModelState.mk (Some mdl) (ModelState.tokenizer (state w))
       (ModelState.model_id (state w)) (ModelState.load_time (state w))
       (ModelState.start_time (state w)) (ModelState.request_count (state w))
       (ModelState.total_tokens_generated (state w)))
    (clock w) (trace w).

(** Sampling parameters within the bounds of the request schema and under
    the server's ceiling. *)
Definition in_range (config : Config.t) (max_tokens : Z) (temp top_p : Q) : Prop :=
  max_tokens <= 2048 /\
  max_tokens <= Config.max_output_tokens config /\
  (1 <= Config.max_output_tokens config -> 1 <= max_tokens) /\
  (0 <= temp <= 2)%Q /\
  (0 <= top_p <= 1)%Q.

(** Two models that generate alike wherever the parameters are in range. *)
Definition agree_in_range (config : Config.t) (mdl mdl' : Model) : Prop :=
  forall tok prompt max_tokens temp top_p,
    in_range config max_tokens temp top_p ->
    generate mdl tok prompt max_tokens temp top_p
    = generate mdl' tok prompt max_tokens temp top_p.

End Session.

(** * Properties *)

Module Facts.

Import Runtime Server Paths.

Local Open Scope string_scope.
Local Open Scope list_scope.

(** ** Python helpers *)

Lemma int_comp (x y : Q) : (x == y)%Q -> Py.int x = Py.int y.
Proof.
  intros E. unfold Py.int.
  rewrite (Qfloor_comp x y E), (Qceiling_comp x y E).
  rewrite (Qleb_comp 0%Q 0%Q (Qeq_refl 0) x y E). reflexivity.
Qed.

Lemma int_of_Z (z : Z) : Py.int (inject_Z z) = z.
Proof.
  unfold Py.int. destruct (Qle_bool 0 (inject_Z z)).
  - apply Qfloor_Z.
  - apply Qceiling_Z.
Qed.

Lemma truthy_iff (x : Q) : Py.truthy x = true <-> ~ (x == 0)%Q.
Proof.
  unfold Py.truthy. rewrite negb_true_iff. split.
  - apply Qeq_bool_neq.
  - intros N. destruct (Qeq_bool x 0) eqn:E; [|reflexivity].
    apply Qeq_bool_iff in E. contradiction.
Qed.

(** ** The handler, path by path *)

Lemma ready_true (s : ModelState.t) :
  ready s = true <->
  exists mdl tok, ModelState.model s = Some mdl /\ ModelState.tokenizer s = Some tok.
Proof.
  unfold ready. split.
  - destruct (ModelState.model s) as [mdl|]; [|discriminate].
    destruct (ModelState.tokenizer s) as [tok|]; [|discriminate].
    intros _. exists mdl, tok. split; reflexivity.
  - intros (mdl & tok & -> & ->). reflexivity.
Qed.

Lemma ready_false_not_both (s : ModelState.t) :
  ready s = false ->
  forall mdl tok,
    ModelState.model s = Some mdl -> ModelState.tokenizer s = Some tok -> False.
Proof.
  unfold ready. intros R mdl tok Hm Ht. rewrite Hm, Ht in R. discriminate R.
Qed.

Lemma not_ready_refused (config : Config.t) (request : GenerateRequest.t) (w : World) :
  ready (state w) = false ->
  generate_response config request w = (inl model_not_loaded, w).
Proof.
  unfold ready, generate_response, bind, get_state, raise.
  destruct (ModelState.model (state w)); [|reflexivity].
  destruct (ModelState.tokenizer (state w)); [discriminate|reflexivity].
Qed.

Lemma try_except_translated (body : M GenerateResponse.t) (v : World) :
  try_except body (fun message => raise (generation_failed message)) v =
  match body v with
  | (inl e, v') => (inl (translated e), v')
  | (inr a, v') => (inr a, v')
  end.
Proof.
  unfold try_except, raise.
  destruct (body v) as [[[c d|m|m]|a] v']; reflexivity.
Qed.

Section Ready.

Variable config : Config.t.
Variable request : GenerateRequest.t.
Variable w : World.
Variable mdl : Model.
Variable tok : Tokenizer.

Hypothesis Hmodel : ModelState.model (state w) = Some mdl.
Hypothesis Htokenizer : ModelState.tokenizer (state w) = Some tok.

Lemma generate_response_entered :
  generate_response config request w =
  try_except (generate_body config mdl tok request (clock w))
             (fun message => raise (generation_failed message))
             (entered w).
Proof.
  unfold generate_response, bind, get_state.
  rewrite Hmodel, Htokenizer. reflexivity.
Qed.

(** The [try] block follows one of the six paths. *)
Lemma generate_body_handled :
  let out := generate_body config mdl tok request (clock w) (entered w) in
  handled config request w mdl tok
          (match fst out with inl e => inl (translated e) | inr a => inr a end)
          (snd out).
Proof.
  unfold generate_body, call_apply_chat_template, call_encode, call_generate, bind, invoke.
  fold (messages_of request). fold (rendering request tok).
  destruct (gave (rendering request tok)) as [e|prompt] eqn:E1; cbn [fst snd].
  { exact (RenderRaised config request w mdl tok e E1). }
  fold (counting tok prompt).
  destruct (gave (counting tok prompt)) as [e|encoded] eqn:E2; cbn [fst snd].
  { exact (CountRaised config request w mdl tok prompt e E1 E2). }
  destruct (len encoded >? Config.max_input_tokens config) eqn:Elen.
  { unfold raise; cbn [fst snd].
    apply Z.gtb_lt in Elen.
    exact (TooLong config request w mdl tok prompt encoded E1 E2 (Z.lt_gt _ _ Elen)). }
  assert (Hle : len encoded <= Config.max_input_tokens config).
  { rewrite Z.gtb_ltb in Elen. apply Z.ltb_ge in Elen. exact Elen. }
  fold (clamped config request). fold (generating config request mdl tok prompt).
  destruct (gave (generating config request mdl tok prompt)) as [e|text] eqn:E3;
    cbn [fst snd].
  { exact (GenerateRaised config request w mdl tok prompt encoded e E1 E2 Hle E3). }
  unfold time_time; cbn [fst snd clock state trace]. fold (counting tok text).
  destruct (gave (counting tok text)) as [e|encoded'] eqn:E4; cbn [fst snd].
  { exact (RecountRaised config request w mdl tok prompt encoded text e E1 E2 Hle E3 E4). }
  unfold modify, bind, get_state, put_state, ret; cbn [fst snd clock state trace].
  exact (Completed config request w mdl tok prompt encoded text encoded' E1 E2 Hle E3 E4).
Qed.

Lemma generate_response_handled (r : Py.exn + GenerateResponse.t) (w' : World) :
  generate_response config request w = (r, w') ->
  handled config request w mdl tok r w'.
Proof.
  rewrite generate_response_entered, try_except_translated.
  pose proof generate_body_handled as H. cbv zeta in H.
  destruct (generate_body config mdl tok request (clock w) (entered w)) as [[e|a] v'];
    cbn [fst snd] in H; intros E; injection E as <- <-; exact H.
Qed.

End Ready.

(** ** What every path leaves behind *)

Lemma calls_advance (c : call) (d : Q) (w : World) :
  calls (advance c d w) = calls w ++ [c].
Proof.
  unfold calls, advance. cbn [trace]. rewrite map_app. reflexivity.
Qed.

Lemma handled_counters config request w mdl tok r w' :
  handled config request w mdl tok r w' ->
  requests w' = requests w + 1 /\
  match r with
  | inr body => tokens w' = tokens w + GenerateResponse.tokens_generated body
  | inl _ => tokens w' = tokens w
  end.
Proof.
  intros H. destruct H; split; reflexivity.
Qed.

(** No ordinary exception leaves the [try] block: what leaves it is an
    [HTTPException], or a [BaseException] that went through both clauses. *)
Lemma handled_raises config request w mdl tok e w' :
  handled config request w mdl tok (inl e) w' ->
  (exists c d, e = Py.HTTPException c d) \/ (exists m, e = Py.BaseException m).
Proof.
  intros H. inversion H; subst;
    repeat match goal with x : Py.exn |- _ => destruct x end;
    unfold translated, generation_failed, input_too_long; eauto.
Qed.

(** The calls each path makes, in order. *)
Lemma handled_calls config request w mdl tok r w' :
  handled config request w mdl tok r w' ->
  exists prompt text,
    let render := ApplyChatTemplate (messages_of request) in
    let gen := generate_call config request prompt in
    match r with
    | inr _ => calls w' = calls w ++ [render; Encode prompt; gen; Encode text]
    | inl _ =>
        calls w' = calls w ++ [render]
        \/ calls w' = calls w ++ [render; Encode prompt]
        \/ calls w' = calls w ++ [render; Encode prompt; gen]
        \/ calls w' = calls w ++ [render; Encode prompt; gen; Encode text]
    end.
Proof.
  intros H. destruct H as [e|prompt e|prompt encoded|prompt encoded e
                           |prompt encoded text e|prompt encoded text encoded'].
  - exists "", "". cbv zeta. left.
    unfold rendered. rewrite calls_advance. reflexivity.
  - exists prompt, "". cbv zeta. right; left.
    unfold counted, rendered. rewrite !calls_advance, <- !app_assoc. reflexivity.
  - exists prompt, "". cbv zeta. right; left.
    unfold counted, rendered. rewrite !calls_advance, <- !app_assoc. reflexivity.
  - exists prompt, "". cbv zeta. right; right; left.
    unfold generated, counted, rendered.
    rewrite !calls_advance, <- !app_assoc. reflexivity.
  - exists prompt, text. cbv zeta. right; right; right.
    unfold recounted, generated, counted, rendered.
    rewrite !calls_advance, <- !app_assoc. reflexivity.
  - exists prompt, text. cbv zeta.
    unfold recounted, generated, counted, rendered.
    change (calls (accounted ?n ?v)) with (calls v).
    rewrite !calls_advance, <- !app_assoc. reflexivity.
Qed.

(** ** The readiness gate *)

(** C2 -- While no model is loaded ([state.model is None]) the handler raises
    [HTTPException(503)] at once and leaves the world as it found it: the
    counters are unchanged, the clock was not read into anything, and no call
    into the tokenizer or the model was made. *)
Theorem not_loaded_service_unavailable config request w :
  ModelState.model (state w) = None ->
  generate_response config request w =
    (inl (Py.HTTPException 503 "Model not loaded. Server is starting up."), w).
Proof.
  intros H. apply not_ready_refused. unfold ready. rewrite H. reflexivity.
Qed.

Lemma not_loaded_service_unavailable_witness :
  ModelState.model (state (Stub.starting 1700000000)) = None /\
  generate_response Config.defaults (Stub.hello 50) (Stub.starting 1700000000) =
    (inl (Py.HTTPException 503 "Model not loaded. Server is starting up."),
     Stub.starting 1700000000).
Proof.
  split; [reflexivity|].
  apply (not_loaded_service_unavailable Config.defaults (Stub.hello 50)
           (Stub.starting 1700000000)).
  reflexivity.
Defined.

(** The same at the endpoint, for a body that passes validation. *)
Lemma post_generate_not_loaded config serialise body request w :
  GenerateRequest.validate body = inr request ->
  ModelState.model (state w) = None ->
  post_generate config serialise body w
    = (Refused 503 "Model not loaded. Server is starting up.", w).
Proof.
  intros V H. unfold post_generate. rewrite V.
  rewrite (not_ready_refused config request w); [reflexivity|].
  unfold ready. rewrite H. reflexivity.
Qed.

(** ** Accounting *)

(** C1, as the code has it -- [request_count] is incremented once, when the
    handler passes the readiness gate, so a request that then fails (at
    prompt rendering, at the input-length check, in generation) is counted
    all the same; a body refused by validation or a request refused by the
    gate touches nothing.  [total_tokens_generated] is unchanged by every
    request that ends before its output has been counted, and grows once, by
    [tokens_generated], for every request whose handler returned a response:
    when the response is delivered, and also when its serialisation then
    fails and the client is answered 500 by the global handler. *)
Theorem counters_per_request config serialise body w reply w' :
  post_generate config serialise body w = (reply, w') ->
  match reply with
  | Unprocessable _ => w' = w
  | Refused _ _ =>
      tokens w' = tokens w /\
      if ready (state w) then requests w' = requests w + 1 else w' = w
  | Escaped _ =>
      requests w' = requests w + 1 /\
      tokens w' = tokens w
  | Returned response =>
      requests w' = requests w + 1 /\
      tokens w' = tokens w + GenerateResponse.tokens_generated response /\
      serialise response = None
  | Unhandled message =>
      exists request response,
        GenerateRequest.validate body = inr request /\
        generate_response config request w = (inr response, w') /\
        serialise response = Some message /\
        requests w' = requests w + 1 /\
        tokens w' = tokens w + GenerateResponse.tokens_generated response
  end.
Proof.
  unfold post_generate.
  destruct (GenerateRequest.validate body) as [fields|request] eqn:V.
  { intros E. injection E as <- <-. reflexivity. }
  destruct (generate_response config request w) as [r v] eqn:G.
  destruct (ready (state w)) eqn:R.
  - apply ready_true in R as (mdl & tok & Hm & Ht).
    pose proof (generate_response_handled config request w mdl tok Hm Ht _ _ G) as H.
    pose proof (handled_counters _ _ _ _ _ _ _ H) as [Hr Ht'].
    destruct r as [e|a].
    + destruct (handled_raises _ _ _ _ _ _ _ H) as [(c & d & ->)|(m & ->)];
        cbn [answer]; intros E; injection E as <- <-; split; assumption.
    + cbn [answer]. unfold global_exception_handler.
      destruct (serialise a) as [message|] eqn:S; intros E; injection E as <- <-.
      * exists request, a. repeat split; assumption.
      * repeat split; assumption.
  - rewrite (not_ready_refused config request w R) in G. injection G as <- <-.
    unfold model_not_loaded. cbn [answer].
    intros E. injection E as <- <-. split; reflexivity.
Qed.

(** C1, as stated, fails: a request refused at the input-length check, before
    any generation began, has been counted. *)
Lemma too_long_request_is_counted :
  let w := Stub.serving (Stub.echo 1 "Hello") (Stub.tokenizer 2 (1 # 2) 100) 1700000100 in
  let out := post_generate Config.defaults Stub.serialises
               (Stub.hello_body None None None) w in
  fst out = Refused 400 "Input too long: 6000 tokens (max: 2048)" /\
  filter is_generate (trace (snd out)) = [] /\
  requests w = 0 /\
  requests (snd out) = 1.
Proof.
  vm_compute. repeat split; reflexivity.
Qed.

(** A short conversation against a double that answers ["Hello"], five tokens
    long: once with the response delivered, once with its serialisation
    failing after the handler returned. *)
Lemma counters_per_request_witness :
  let w := Stub.serving (Stub.echo 1 "Hello") (Stub.tokenizer 2 (1 # 2) 1) 1700000100 in
  let body := Stub.hello_body (Some 50) None None in
  let response := GenerateResponse.mk "Hello" 5 3500 "stub-model" in
  let out := post_generate Config.defaults Stub.serialises body w in
  let out' := post_generate Config.defaults (Stub.unserialisable "not UTF-8") body w in
  (out = (Returned response, snd out) /\
   requests (snd out) = requests w + 1 /\
   tokens (snd out) = tokens w + 5 /\
   Stub.serialises response = None) /\
  (out' = (Unhandled "not UTF-8", snd out') /\
   exists request response',
     GenerateRequest.validate body = inr request /\
     generate_response Config.defaults request w = (inr response', snd out') /\
     Stub.unserialisable "not UTF-8" response' = Some "not UTF-8" /\
     requests (snd out') = requests w + 1 /\
     tokens (snd out') = tokens w + GenerateResponse.tokens_generated response').
Proof.
  cbv zeta. split.
  - assert (E : post_generate Config.defaults Stub.serialises
                  (Stub.hello_body (Some 50) None None)
                  (Stub.serving (Stub.echo 1 "Hello") (Stub.tokenizer 2 (1 # 2) 1) 1700000100)
                = (Returned (GenerateResponse.mk "Hello" 5 3500 "stub-model"),
                   snd (post_generate Config.defaults Stub.serialises
                          (Stub.hello_body (Some 50) None None)
                          (Stub.serving (Stub.echo 1 "Hello") (Stub.tokenizer 2 (1 # 2) 1)
                             1700000100))))
      by (vm_compute; reflexivity).
    split; [exact E|].
    exact (counters_per_request Config.defaults Stub.serialises
             (Stub.hello_body (Some 50) None None) _ _ _ E).
  - assert (E : post_generate Config.defaults (Stub.unserialisable "not UTF-8")
                  (Stub.hello_body (Some 50) None None)
                  (Stub.serving (Stub.echo 1 "Hello") (Stub.tokenizer 2 (1 # 2) 1) 1700000100)
                = (Unhandled "not UTF-8",
                   snd (post_generate Config.defaults (Stub.unserialisable "not UTF-8")
                          (Stub.hello_body (Some 50) None None)
                          (Stub.serving (Stub.echo 1 "Hello") (Stub.tokenizer 2 (1 # 2) 1)
                             1700000100))))
      by (vm_compute; reflexivity).
    split; [exact E|].
    exact (counters_per_request Config.defaults (Stub.unserialisable "not UTF-8")
             (Stub.hello_body (Some 50) None None) _ _ _ E).
Defined.

(** ** The token budget *)

(** Two outcomes recorded for the same call are the same outcome. *)
Ltac same_outcome :=
  unfold rendering, counting, generating in *;
  repeat match goal with
         | H1 : gave ?r = inr ?a, H2 : gave ?r = inr _ |- _ =>
             rewrite H1 in H2; injection H2 as <-
         | H1 : gave ?r = inr _, H2 : gave ?r = inl _ |- _ =>
             rewrite H1 in H2; discriminate H2
         end.

Lemma no_generate_among (w : World) (cs : list call) (w' : World) :
  calls w' = calls w ++ cs ->
  (forall prompt m t p, ~ In (Generate prompt m t p) cs) ->
  length (filter is_generate (trace w')) = length (filter is_generate (trace w)).
Proof.
  unfold calls. intros E N.
  assert (G : forall evs : list event,
             length (filter is_generate evs)
             = length (filter (fun c => match c with Generate _ _ _ _ => true | _ => false end)
                              (map what evs))).
  { induction evs as [|ev evs IH]; [reflexivity|].
    cbn [map filter]. unfold is_generate at 1.
    destruct (what ev); cbn [length]; rewrite IH; reflexivity. }
  rewrite !G, E, filter_app, length_app.
  assert (Z0 : filter (fun c => match c with Generate _ _ _ _ => true | _ => false end) cs = []).
  { clear E. induction cs as [|c cs IH]; [reflexivity|].
    cbn [filter]. destruct c as [id|ms|text|prompt m t p].
    - apply IH. intros ? ? ? ? I. apply (N _ _ _ _ (or_intror I)).
    - apply IH. intros ? ? ? ? I. apply (N _ _ _ _ (or_intror I)).
    - apply IH. intros ? ? ? ? I. apply (N _ _ _ _ (or_intror I)).
    - exfalso. apply (N prompt m t p). left. reflexivity. }
  rewrite Z0. cbn [length]. lia.
Qed.

(** C3 -- When the rendered prompt encodes to more tokens than
    [config.max_input_tokens], the handler raises [HTTPException(400)] whose
    detail gives the measured count and the ceiling; the only calls made into
    the runtime are the template rendering and the encoding of the prompt,
    so the trace gains no [generate] call. *)
Theorem input_too_long_refused config request w mdl tok prompt encoded :
  ModelState.model (state w) = Some mdl ->
  ModelState.tokenizer (state w) = Some tok ->
  gave (apply_chat_template tok (messages_of request)) = inr prompt ->
  gave (encode tok prompt) = inr encoded ->
  len encoded > Config.max_input_tokens config ->
  exists w',
    generate_response config request w =
      (inl (Py.HTTPException 400
              ("Input too long: " ++ Py.str_int (len encoded)
               ++ " tokens (max: " ++ Py.str_int (Config.max_input_tokens config)
               ++ ")")%string),
       w') /\
    calls w' = calls w ++ [ApplyChatTemplate (messages_of request); Encode prompt] /\
    length (filter is_generate (trace w')) = length (filter is_generate (trace w)).
Proof.
  intros Hm Ht E1 E2 Hlen.
  destruct (generate_response config request w) as [r v] eqn:G.
  exists v.
  apply (generate_response_handled config request w mdl tok Hm Ht) in G.
  assert (C : r = inl (input_too_long config (len encoded)) /\
              calls v = calls w ++ [ApplyChatTemplate (messages_of request); Encode prompt]).
  { inversion G; subst; same_outcome; try lia.
    split; [reflexivity|].
    unfold counted, rendered. rewrite !calls_advance, <- !app_assoc. reflexivity. }
  destruct C as [-> C]. split; [reflexivity|]. split; [exact C|].
  apply (no_generate_among w _ v C).
  intros ? ? ? ? [I|[I|[]]]; discriminate I.
Qed.

Lemma input_too_long_refused_witness :
  let tok := Stub.tokenizer 2 (1 # 2) 100 in
  let mdl := Stub.echo 1 "Hello" in
  let w := Stub.serving mdl tok 1700000100 in
  let prompt := "system: You are a helpful assistant.|user: Hello|assistant: " in
  len (Stub.tokens 100 prompt) > Config.max_input_tokens Config.defaults /\
  exists w',
    generate_response Config.defaults (Stub.hello 50) w =
      (inl (Py.HTTPException 400 "Input too long: 6000 tokens (max: 2048)"), w') /\
    calls w' = [ApplyChatTemplate (messages_of (Stub.hello 50)); Encode prompt] /\
    length (filter is_generate (trace w')) = 0%nat.
Proof.
  cbv zeta. split; [vm_compute; reflexivity|].
  apply (input_too_long_refused Config.defaults (Stub.hello 50)
           (Stub.serving (Stub.echo 1 "Hello") (Stub.tokenizer 2 (1 # 2) 100) 1700000100)
           (Stub.echo 1 "Hello") (Stub.tokenizer 2 (1 # 2) 100)
           "system: You are a helpful assistant.|user: Hello|assistant: "
           (Stub.tokens 100 "system: You are a helpful assistant.|user: Hello|assistant: "));
    vm_compute; reflexivity.
Defined.

(** C4 -- Whatever the request, every [generate] call the handler makes
    carries [max_tokens = min(request.max_tokens, config.max_output_tokens)]:
    never above the server's ceiling, never above what the client asked for.
    A request that returns a response made exactly one such call.  For a
    request that is accepted (a model is loaded, the prompt is rendered and is
    within the input limit) the model is applied to that minimum and to
    nothing else: what the handler does next is what
    [generate(model, tokenizer, prompt, min(...), temp, top_p)] did. *)
Theorem max_tokens_clamped config request w r w' :
  generate_response config request w = (r, w') ->
  exists made,
    calls w' = calls w ++ made /\
    (forall prompt m t p,
        In (Generate prompt m t p) made ->
        m = Z.min (GenerateRequest.max_tokens request) (Config.max_output_tokens config) /\
        m <= Config.max_output_tokens config /\
        m <= GenerateRequest.max_tokens request) /\
    (forall response,
        r = inr response ->
        exists prompt,
          In (Generate prompt
                (Z.min (GenerateRequest.max_tokens request) (Config.max_output_tokens config))
                (GenerateRequest.temperature request) (GenerateRequest.top_p request))
             made) /\
    (forall mdl tok prompt encoded,
        ModelState.model (state w) = Some mdl ->
        ModelState.tokenizer (state w) = Some tok ->
        gave (apply_chat_template tok (messages_of request)) = inr prompt ->
        gave (encode tok prompt) = inr encoded ->
        len encoded <= Config.max_input_tokens config ->
        let max_tokens :=
          Z.min (GenerateRequest.max_tokens request) (Config.max_output_tokens config) in
        let temp := GenerateRequest.temperature request in
        let top_p := GenerateRequest.top_p request in
        In (Generate prompt max_tokens temp top_p) made /\
        match gave (generate mdl tok prompt max_tokens temp top_p) with
        | inl e => r = inl (translated e)
        | inr text =>
            match gave (encode tok text) with
            | inl e => r = inl (translated e)
            | inr encoded' =>
                exists ms,
                  r = inr (GenerateResponse.mk text (len encoded') ms
                             (ModelState.model_id (state w)))
            end
        end).
Proof.
  intros G.
  destruct (ready (state w)) eqn:R.
  - apply ready_true in R as (mdl0 & tok0 & Hm & Ht).
    apply (generate_response_handled config request w mdl0 tok0 Hm Ht) in G.
    assert (U : forall mdl tok,
               ModelState.model (state w) = Some mdl ->
               ModelState.tokenizer (state w) = Some tok ->
               mdl = mdl0 /\ tok = tok0).
    { intros mdl tok Hm' Ht'. rewrite Hm in Hm'. rewrite Ht in Ht'.
      injection Hm' as <-. injection Ht' as <-. split; reflexivity. }
    assert (K : forall made prompt p m t q,
               incl made [ApplyChatTemplate (messages_of request); Encode prompt;
                          generate_call config request prompt] ->
               In (Generate p m t q) made ->
               m = Z.min (GenerateRequest.max_tokens request) (Config.max_output_tokens config) /\
               m <= Config.max_output_tokens config /\
               m <= GenerateRequest.max_tokens request).
    { intros made prompt p m t q I J. apply I in J.
      destruct J as [J|[J|[J|[]]]]; try discriminate J.
      unfold generate_call, clamped in J. injection J as _ <- _ _.
      split; [reflexivity|]. split; [apply Z.le_min_r | apply Z.le_min_l]. }
    destruct G as [e E1|prompt e E1 E2|prompt encoded E1 E2 Hlen
                  |prompt encoded e E1 E2 Hle E3|prompt encoded text e E1 E2 Hle E3 E4
                  |prompt encoded text encoded' E1 E2 Hle E3 E4].
    + exists [ApplyChatTemplate (messages_of request)].
      split; [unfold rendered; rewrite calls_advance; reflexivity|].
      split; [intros p m t q J; apply (K _ "" p m t q) in J; [exact J|];
              intros x [<-|[]]; left; reflexivity|].
      split; [discriminate|].
      intros mdl tok p enc Hm' Ht' F1 F2 Fle. destruct (U _ _ Hm' Ht') as [-> ->].
      same_outcome.
    + exists [ApplyChatTemplate (messages_of request); Encode prompt].
      split; [unfold counted, rendered; rewrite !calls_advance, <- !app_assoc; reflexivity|].
      split; [intros p m t q J; apply (K _ prompt p m t q) in J; [exact J|];
              intros x Hx; cbn [In] in *; tauto|].
      split; [discriminate|].
      intros mdl tok p enc Hm' Ht' F1 F2 Fle. destruct (U _ _ Hm' Ht') as [-> ->].
      same_outcome.
    + exists [ApplyChatTemplate (messages_of request); Encode prompt].
      split; [unfold counted, rendered; rewrite !calls_advance, <- !app_assoc; reflexivity|].
      split; [intros p m t q J; apply (K _ prompt p m t q) in J; [exact J|];
              intros x Hx; cbn [In] in *; tauto|].
      split; [discriminate|].
      intros mdl tok p enc Hm' Ht' F1 F2 Fle. destruct (U _ _ Hm' Ht') as [-> ->].
      same_outcome. lia.
    + exists [ApplyChatTemplate (messages_of request); Encode prompt;
              generate_call config request prompt].
      split; [unfold generated, counted, rendered;
              rewrite !calls_advance, <- !app_assoc; reflexivity|].
      split; [intros p m t q J; apply (K _ prompt p m t q) in J; [exact J|];
              apply incl_refl|].
      split; [discriminate|].
      intros mdl tok p enc Hm' Ht' F1 F2 Fle. destruct (U _ _ Hm' Ht') as [-> ->].
      same_outcome. cbv zeta. unfold clamped in E3.
      split; [right; right; left; reflexivity|].
      rewrite E3. reflexivity.
    + exists [ApplyChatTemplate (messages_of request); Encode prompt;
              generate_call config request prompt; Encode text].
      split; [unfold recounted, generated, counted, rendered;
              rewrite !calls_advance, <- !app_assoc; reflexivity|].
      split; [intros p m t q J; apply (K [ApplyChatTemplate (messages_of request);
                                          Encode prompt; generate_call config request prompt]
                                         prompt p m t q);
              [apply incl_refl|];
              cbn [In] in *;
              destruct J as [J|[J|[J|[J|[]]]]]; try discriminate J; tauto|].
      split; [discriminate|].
      intros mdl tok p enc Hm' Ht' F1 F2 Fle. destruct (U _ _ Hm' Ht') as [-> ->].
      same_outcome. cbv zeta. unfold clamped in E3.
      split; [right; right; left; reflexivity|].
      rewrite E3, E4. reflexivity.
    + exists [ApplyChatTemplate (messages_of request); Encode prompt;
              generate_call config request prompt; Encode text].
      split; [unfold recounted, generated, counted, rendered;
              change (calls (accounted ?n ?x)) with (calls x);
              rewrite !calls_advance, <- !app_assoc; reflexivity|].
      split; [intros p m t q J; apply (K [ApplyChatTemplate (messages_of request);
                                          Encode prompt; generate_call config request prompt]
                                         prompt p m t q);
              [apply incl_refl|];
              cbn [In] in *;
              destruct J as [J|[J|[J|[J|[]]]]]; try discriminate J; tauto|].
      split; [intros _ _; exists prompt; right; right; left; reflexivity|].
      intros mdl tok p enc Hm' Ht' F1 F2 Fle. destruct (U _ _ Hm' Ht') as [-> ->].
      same_outcome. cbv zeta. unfold clamped in E3.
      split; [right; right; left; reflexivity|].
      rewrite E3, E4. eexists. reflexivity.
  - rewrite (not_ready_refused config request w R) in G. injection G as <- <-.
    exists []. split; [symmetry; apply app_nil_r|].
    split; [intros ? ? ? ? []|]. split; [discriminate|].
    intros mdl tok p enc Hm' Ht'.
    exfalso. exact (ready_false_not_both _ R mdl tok Hm' Ht').
Qed.

(** A model that answers with the [max_tokens] it was handed: asked for 2000
    tokens under a ceiling of 1024, it answers ["1024"]. *)
Lemma max_tokens_clamped_witness :
  let tok := Stub.tokenizer 2 (1 # 2) 1 in
  let w := Stub.serving (Stub.parrot 1) tok 1700000100 in
  let out := generate_response Config.defaults (Stub.hello 2000) w in
  let prompt := "system: You are a helpful assistant.|user: Hello|assistant: " in
  let response := GenerateResponse.mk "1024" 4 3500 "stub-model" in
  out = (inr response, snd out) /\
  calls (snd out) = [ApplyChatTemplate (messages_of (Stub.hello 2000)); Encode prompt;
                     Generate prompt 1024 (7 # 10) (9 # 10); Encode "1024"] /\
  len (Stub.tokens 1 prompt) <= Config.max_input_tokens Config.defaults /\
  exists made,
    calls (snd out) = calls w ++ made /\
    In (Generate prompt (Z.min 2000 1024) (7 # 10) (9 # 10)) made /\
    exists ms,
      @inr Py.exn _ response
      = inr (GenerateResponse.mk "1024" (len (Stub.tokens 1 "1024")) ms "stub-model").
Proof.
  cbv zeta.
  assert (E : generate_response Config.defaults (Stub.hello 2000)
                (Stub.serving (Stub.parrot 1) (Stub.tokenizer 2 (1 # 2) 1) 1700000100)
              = (inr (GenerateResponse.mk "1024" 4 3500 "stub-model"),
                 snd (generate_response Config.defaults (Stub.hello 2000)
                        (Stub.serving (Stub.parrot 1) (Stub.tokenizer 2 (1 # 2) 1)
                           1700000100))))
    by (vm_compute; reflexivity).
  assert (L : len (Stub.tokens 1 "system: You are a helpful assistant.|user: Hello|assistant: ")
              <= Config.max_input_tokens Config.defaults)
    by (vm_compute; discriminate).
  split; [exact E|]. split; [vm_compute; reflexivity|]. split; [exact L|].
  destruct (max_tokens_clamped Config.defaults (Stub.hello 2000) _ _ _ E)
    as (made & C & _ & _ & P).
  exists made. split; [exact C|].
  exact (P (Stub.parrot 1) (Stub.tokenizer 2 (1 # 2) 1)
           "system: You are a helpful assistant.|user: Hello|assistant: "
           (Stub.tokens 1 "system: You are a helpful assistant.|user: Hello|assistant: ")
           eq_refl eq_refl eq_refl eq_refl L).
Defined.

(** The two worked values of the clamp: a ceiling of 1024 against requests
    for 2000 and for 100 tokens. *)
Example clamped_2000 : clamped Config.defaults (Stub.hello 2000) = 1024.
Proof. reflexivity. Qed.

Example clamped_100 : clamped Config.defaults (Stub.hello 100) = 100.
Proof. reflexivity. Qed.

(** ** Validation of the request body *)

Lemma int_in_false lo hi v :
  v < lo \/ hi < v -> GenerateRequest.int_in lo hi v = false.
Proof.
  unfold GenerateRequest.int_in. intros [H|H].
  - apply andb_false_iff. left. apply Z.leb_gt. exact H.
  - apply andb_false_iff. right. apply Z.leb_gt. exact H.
Qed.

Lemma int_in_true lo hi v :
  lo <= v <= hi -> GenerateRequest.int_in lo hi v = true.
Proof.
  unfold GenerateRequest.int_in. intros [H1 H2].
  apply andb_true_iff. split; apply Z.leb_le; assumption.
Qed.

Lemma Qle_bool_false (x y : Q) : (y < x)%Q -> Qle_bool x y = false.
Proof.
  intros H. destruct (Qle_bool x y) eqn:E; [|reflexivity].
  apply Qle_bool_iff in E. exfalso. exact (Qlt_not_le _ _ H E).
Qed.

Lemma float_in_false lo hi v :
  (v < lo \/ hi < v)%Q -> GenerateRequest.float_in lo hi v = false.
Proof.
  unfold GenerateRequest.float_in. intros [H|H].
  - apply andb_false_iff. left. apply Qle_bool_false. exact H.
  - apply andb_false_iff. right. apply Qle_bool_false. exact H.
Qed.

Lemma float_in_true lo hi v :
  (lo <= v <= hi)%Q -> GenerateRequest.float_in lo hi v = true.
Proof.
  unfold GenerateRequest.float_in. intros [H1 H2].
  apply andb_true_iff. split; apply Qle_bool_iff; assumption.
Qed.

Lemma validate_errors body :
  GenerateRequest.errors body <> [] ->
  GenerateRequest.validate body = inl (GenerateRequest.errors body).
Proof.
  unfold GenerateRequest.validate. intros N.
  destruct (GenerateRequest.errors body) as [|f fs]; [contradiction|].
  reflexivity.
Qed.

Lemma all_messages_well_formed (messages : list Message.t) :
  GenerateRequest.all_messages (map Some messages) = Some messages.
Proof.
  induction messages as [|m ms IH]; [reflexivity|].
  cbn [map GenerateRequest.all_messages]. rewrite IH. reflexivity.
Qed.

(** C5, as the code has it -- The body is checked against the field
    constraints of [GenerateRequest] before the handler is entered: a
    [max_tokens] outside 1..2048, a [temperature] outside 0..2 or a [top_p]
    outside 0..1 is refused (422) with the world untouched, so no tokenizer
    or model call is made and no counter moves.  Neither the length of the
    message list nor the role strings are constrained: with the three numbers
    in range, a list of well-formed messages, the empty one and any role
    string included, passes validation, the handler runs on it, and when a
    model is loaded the list is handed as it is to the tokenizer's chat
    template, which is the first call made and whose failure is the
    request's. *)
Theorem validation_checks_ranges_only config serialise body w :
  let m := GenerateRequest.with_default GenerateRequest.default_max_tokens
             (GenerateRequest.body_max_tokens body) in
  let t := GenerateRequest.with_default GenerateRequest.default_temperature
             (GenerateRequest.body_temperature body) in
  let p := GenerateRequest.with_default GenerateRequest.default_top_p
             (GenerateRequest.body_top_p body) in
  ((m < 1 \/ 2048 < m) \/ (t < 0 \/ 2 < t)%Q \/ (p < 0 \/ 1 < p)%Q ->
   exists fields,
     fields <> [] /\
     post_generate config serialise body w = (Unprocessable fields, w)) /\
  (1 <= m <= 2048 -> (0 <= t <= 2)%Q -> (0 <= p <= 1)%Q ->
   forall messages,
     GenerateRequest.body_messages body = Some (map Some messages) ->
     let request := GenerateRequest.mk messages m t p in
     let handed := map (fun x => (Message.role x, Message.content x)) messages in
     GenerateRequest.validate body = inr request /\
     post_generate config serialise body w
       = (answer serialise (fst (generate_response config request w)),
          snd (generate_response config request w)) /\
     forall mdl tok,
       ModelState.model (state w) = Some mdl ->
       ModelState.tokenizer (state w) = Some tok ->
       (exists made,
           calls (snd (post_generate config serialise body w))
           = calls w ++ ApplyChatTemplate handed :: made) /\
       (forall e,
           gave (apply_chat_template tok handed) = inl e ->
           fst (post_generate config serialise body w)
           = answer serialise (inl (translated e)))).
Proof.
  intros m t p. split.
  - intros H.
    assert (N : GenerateRequest.errors body <> []).
    { unfold GenerateRequest.errors. fold m t p.
      destruct H as [H|[H|H]].
      + rewrite (int_in_false _ _ _ H).
        intros E. apply app_eq_nil in E as [_ E]. discriminate E.
      + rewrite (float_in_false _ _ _ H).
        intros E. apply app_eq_nil in E as [_ E].
        apply app_eq_nil in E as [_ E]. discriminate E.
      + rewrite (float_in_false _ _ _ H).
        intros E. apply app_eq_nil in E as [_ E].
        apply app_eq_nil in E as [_ E].
        apply app_eq_nil in E as [_ E]. discriminate E. }
    exists (GenerateRequest.errors body). split; [exact N|].
    unfold post_generate. rewrite (validate_errors body N). reflexivity.
  - intros Hm Ht Hp messages E. cbv zeta.
    assert (V : GenerateRequest.validate body = inr (GenerateRequest.mk messages m t p)).
    { unfold GenerateRequest.validate, GenerateRequest.errors,
        GenerateRequest.validated_messages. fold m t p.
      rewrite E, all_messages_well_formed.
      rewrite (int_in_true _ _ _ Hm), (float_in_true _ _ _ Ht), (float_in_true _ _ _ Hp).
      reflexivity. }
    assert (P : post_generate config serialise body w
                = (answer serialise
                     (fst (generate_response config (GenerateRequest.mk messages m t p) w)),
                   snd (generate_response config (GenerateRequest.mk messages m t p) w))).
    { unfold post_generate. rewrite V.
      destruct (generate_response config (GenerateRequest.mk messages m t p) w).
      reflexivity. }
    split; [exact V|]. split; [exact P|].
    intros mdl tok Hmdl Htok. rewrite P. cbn [fst snd].
    destruct (generate_response config (GenerateRequest.mk messages m t p) w)
      as [r v] eqn:G. cbn [fst snd].
    pose proof (generate_response_handled config _ w mdl tok Hmdl Htok _ _ G) as H.
    split.
    + destruct (handled_calls _ _ _ _ _ _ _ H) as (prompt & text & C). cbv zeta in C.
      change (messages_of (GenerateRequest.mk messages m t p))
        with (map (fun x => (Message.role x, Message.content x)) messages) in C.
      destruct r as [e|a]; [destruct C as [C|[C|[C|C]]]|];
        rewrite C; eexists; reflexivity.
    + intros e Ee. f_equal.
      inversion H; subst; unfold rendering in *;
        change (messages_of (GenerateRequest.mk messages m t p))
          with (map (fun x => (Message.role x, Message.content x)) messages) in *;
        match goal with
        | H1 : gave ?x = inl e, H2 : gave ?x = _ |- _ => rewrite H1 in H2
        end;
        try discriminate.
      match goal with H2 : inl _ = inl _ |- _ => injection H2 as <- end.
      reflexivity.
Qed.

(** C5, as stated, fails: an empty message list and a message whose role is
    none of [system], [user], [assistant] both pass validation, and the
    handler goes on to call the tokenizer and the model with them. *)
Lemma empty_and_unknown_role_are_served :
  let w := Stub.serving (Stub.echo 1 "Hello") (Stub.tokenizer 2 (1 # 2) 1) 1700000100 in
  let empty := GenerateRequest.mk_body (Some []) None None None in
  let odd :=
    GenerateRequest.mk_body (Some [Some (Message.mk "wizard" "hi")]) None None None in
  (GenerateRequest.validate empty = inr (GenerateRequest.mk [] 512 (7 # 10) (9 # 10)) /\
   fst (post_generate Config.defaults Stub.serialises empty w)
     = Returned (GenerateResponse.mk "Hello" 5 3500 "stub-model") /\
   calls (snd (post_generate Config.defaults Stub.serialises empty w))
     = [ApplyChatTemplate []; Encode "assistant: ";
        Generate "assistant: " 512 (7 # 10) (9 # 10); Encode "Hello"]) /\
  (GenerateRequest.validate odd
     = inr (GenerateRequest.mk [Message.mk "wizard" "hi"] 512 (7 # 10) (9 # 10)) /\
   fst (post_generate Config.defaults Stub.serialises odd w)
     = Returned (GenerateResponse.mk "Hello" 5 3500 "stub-model") /\
   calls (snd (post_generate Config.defaults Stub.serialises odd w))
     = [ApplyChatTemplate [("wizard", "hi")]; Encode "wizard: hi|assistant: ";
        Generate "wizard: hi|assistant: " 512 (7 # 10) (9 # 10); Encode "Hello"]).
Proof.
  vm_compute. repeat split; reflexivity.
Qed.

(** A [max_tokens] of 0 is refused and nothing is touched; an empty
    conversation with the default numbers is accepted, and the empty list is
    what the chat template is called on: when the template raises, that is
    the reply. *)
Lemma validation_checks_ranges_only_witness :
  let tok := Stub.no_template (Py.Exception "no messages") in
  let w := Stub.serving (Stub.echo 1 "Hello") tok 1700000100 in
  let empty := GenerateRequest.mk_body (Some []) None None None in
  (exists fields,
      fields <> [] /\
      post_generate Config.defaults Stub.serialises
        (Stub.hello_body (Some 0) None None) w
      = (Unprocessable fields, w)) /\
  GenerateRequest.validate empty = inr (GenerateRequest.mk [] 512 (7 # 10) (9 # 10)) /\
  (exists made,
      calls (snd (post_generate Config.defaults Stub.serialises empty w))
      = calls w ++ ApplyChatTemplate [] :: made) /\
  fst (post_generate Config.defaults Stub.serialises empty w)
    = Refused 500 "Generation failed: no messages".
Proof.
  cbv zeta. split.
  - apply (validation_checks_ranges_only Config.defaults Stub.serialises
             (Stub.hello_body (Some 0) None None)).
    left. left. reflexivity.
  - destruct (proj2 (validation_checks_ranges_only Config.defaults Stub.serialises
                       (GenerateRequest.mk_body (Some []) None None None)
                       (Stub.serving (Stub.echo 1 "Hello")
                          (Stub.no_template (Py.Exception "no messages")) 1700000100))
                (conj (Zle_bool_imp_le 1 512 eq_refl) (Zle_bool_imp_le 512 2048 eq_refl))
                (conj (Qle_bool_imp_le 0 (7 # 10) eq_refl) (Qle_bool_imp_le (7 # 10) 2 eq_refl))
                (conj (Qle_bool_imp_le 0 (9 # 10) eq_refl) (Qle_bool_imp_le (9 # 10) 1 eq_refl))
                [] eq_refl)
      as (V & _ & K).
    split; [exact V|].
    destruct (K (Stub.echo 1 "Hello") (Stub.no_template (Py.Exception "no messages"))
                eq_refl eq_refl) as (C & F).
    split; [exact C|].
    exact (F (Py.Exception "no messages") eq_refl).
Defined.

(** ** Timing *)

(** C6, as the code has it -- The clock is read once the readiness gate is
    passed, before the prompt is rendered, and again when [generate] has
    returned.  For a request that returns a response, [generation_time_ms]
    is that span in whole milliseconds: template rendering, the encoding of
    the prompt and the generation call together.  The encoding of the
    generated text comes after the second reading and is not in it. *)
Theorem generation_time_measured config request w response w' :
  generate_response config request w = (inr response, w') ->
  exists render count gen recount,
    trace w' = trace w ++ [render; count; gen; recount] /\
    map is_generate [render; count; gen; recount] = [false; false; true; false] /\
    began render = clock w /\
    began count = ended render /\
    began gen = ended count /\
    began recount = ended gen /\
    GenerateResponse.generation_time_ms response
      = Py.int ((ended gen - began render) * 1000)%Q /\
    GenerateResponse.generation_time_ms response
      = Py.int ((lasted render + lasted count + lasted gen) * 1000)%Q.
Proof.
  intros G.
  destruct (ready (state w)) eqn:R.
  2:{ rewrite (not_ready_refused config request w R) in G. discriminate G. }
  apply ready_true in R as (mdl & tok & Hm & Ht).
  apply (generate_response_handled config request w mdl tok Hm Ht) in G.
  inversion G as [| | | | |prompt encoded text encoded' E1 E2 Hle E3 E4 Hr Hw].
  unfold accounted, recounted, generated, counted, rendered, advance, entered.
  cbn [trace clock state]. rewrite <- !app_assoc. cbn [app].
  do 4 eexists. split; [reflexivity|].
  cbn [GenerateResponse.generation_time_ms began ended map is_generate what generate_call].
  repeat (split; [reflexivity|]).
  apply int_comp. unfold lasted. cbn [began ended]. ring.
Qed.

(** C6, as stated, fails: the generation call ran for one second, rendering
    for two and the encoding of the prompt for half a second, and the
    response reports 3500 ms. *)
Lemma generation_time_includes_rendering :
  let w := Stub.serving (Stub.echo 1 "Hello") (Stub.tokenizer 2 (1 # 2) 1) 1700000100 in
  let out := generate_response Config.defaults (Stub.hello 50) w in
  fst out = inr (GenerateResponse.mk "Hello" 5 3500 "stub-model") /\
  map (fun ev => (is_generate ev, Py.int (lasted ev * 1000)%Q)) (trace (snd out))
    = [(false, 2000); (false, 500); (true, 1000); (false, 500)].
Proof.
  vm_compute. split; reflexivity.
Qed.

Lemma generation_time_measured_witness :
  let w := Stub.serving (Stub.echo 1 "Hello") (Stub.tokenizer 2 (1 # 2) 1) 1700000100 in
  let out := generate_response Config.defaults (Stub.hello 50) w in
  let response := GenerateResponse.mk "Hello" 5 3500 "stub-model" in
  out = (inr response, snd out) /\
  exists render count gen recount,
    trace (snd out) = trace w ++ [render; count; gen; recount] /\
    map is_generate [render; count; gen; recount] = [false; false; true; false] /\
    began render = clock w /\
    began count = ended render /\
    began gen = ended count /\
    began recount = ended gen /\
    3500 = Py.int ((ended gen - began render) * 1000)%Q /\
    3500 = Py.int ((lasted render + lasted count + lasted gen) * 1000)%Q.
Proof.
  cbv zeta.
  assert (E : generate_response Config.defaults (Stub.hello 50)
                (Stub.serving (Stub.echo 1 "Hello") (Stub.tokenizer 2 (1 # 2) 1) 1700000100)
              = (inr (GenerateResponse.mk "Hello" 5 3500 "stub-model"),
                 snd (generate_response Config.defaults (Stub.hello 50)
                        (Stub.serving (Stub.echo 1 "Hello") (Stub.tokenizer 2 (1 # 2) 1)
                           1700000100))))
    by (vm_compute; reflexivity).
  split; [exact E|].
  exact (generation_time_measured Config.defaults (Stub.hello 50) _ _ _ E).
Defined.

(** ** The request timeout *)

Lemma timeout_not_consulted config seconds request w :
  generate_response (Config.with_request_timeout config seconds) request w
  = generate_response config request w.
Proof. reflexivity. Qed.

(** C7, as the code has it -- [config.request_timeout] is never consulted:
    the handler's outcome is the same under every value of it.  A generation
    call that runs longer than the configured budget is waited for; when it
    returns, the request returns its response and both counters are updated
    as for any other completed request. *)
Theorem slow_generation_completes config request w mdl tok prompt encoded text encoded' :
  ModelState.model (state w) = Some mdl ->
  ModelState.tokenizer (state w) = Some tok ->
  gave (apply_chat_template tok (messages_of request)) = inr prompt ->
  gave (encode tok prompt) = inr encoded ->
  len encoded <= Config.max_input_tokens config ->
  gave (generating config request mdl tok prompt) = inr text ->
  gave (encode tok text) = inr encoded' ->
  (inject_Z (Config.request_timeout config) < took (generating config request mdl tok prompt))%Q ->
  (forall seconds,
      generate_response (Config.with_request_timeout config seconds) request w
      = generate_response config request w) /\
  exists response w',
    generate_response config request w = (inr response, w') /\
    GenerateResponse.response response = text /\
    GenerateResponse.tokens_generated response = len encoded' /\
    requests w' = requests w + 1 /\
    tokens w' = tokens w + len encoded'.
Proof.
  intros Hm Ht E1 E2 Hle E3 E4 _.
  split; [intros seconds; apply timeout_not_consulted|].
  destruct (generate_response config request w) as [r v] eqn:G.
  apply (generate_response_handled config request w mdl tok Hm Ht) in G.
  inversion G; subst; same_outcome; try lia.
  eexists. eexists. split; [reflexivity|].
  repeat split; reflexivity.
Qed.

(** C7, as stated, fails: under the default budget of 60 seconds a
    generation call that runs for 100 seconds is not abandoned; the request
    returns 200 and both counters have moved. *)
Lemma slow_generation_is_not_abandoned :
  let w := Stub.serving (Stub.echo 100 "Hello") (Stub.tokenizer 0 0 1) 1700000100 in
  let out := post_generate Config.defaults Stub.serialises
               (Stub.hello_body (Some 50) None None) w in
  Config.request_timeout Config.defaults = 60 /\
  map (fun ev => (is_generate ev, lasted ev)) (trace (snd out))
    = [(false, 0%Q); (false, 0%Q); (true, 100%Q); (false, 0%Q)] /\
  status_code_of (fst out) = 200 /\
  fst out = Returned (GenerateResponse.mk "Hello" 5 100000 "stub-model") /\
  (requests w, tokens w) = (0, 0) /\
  (requests (snd out), tokens (snd out)) = (1, 5).
Proof.
  vm_compute. repeat split; reflexivity.
Qed.

Lemma slow_generation_completes_witness :
  let tok := Stub.tokenizer 0 0 1 in
  let mdl := Stub.echo 100 "Hello" in
  let w := Stub.serving mdl tok 1700000100 in
  let prompt := "system: You are a helpful assistant.|user: Hello|assistant: " in
  (inject_Z (Config.request_timeout Config.defaults)
   < took (generating Config.defaults (Stub.hello 50) mdl tok prompt))%Q /\
  exists response w',
    generate_response Config.defaults (Stub.hello 50) w = (inr response, w') /\
    GenerateResponse.response response = "Hello" /\
    GenerateResponse.tokens_generated response = 5 /\
    requests w' = 1 /\
    tokens w' = 5.
Proof.
  cbv zeta. split; [reflexivity|].
  apply (slow_generation_completes Config.defaults (Stub.hello 50)
           (Stub.serving (Stub.echo 100 "Hello") (Stub.tokenizer 0 0 1) 1700000100)
           (Stub.echo 100 "Hello") (Stub.tokenizer 0 0 1)
           "system: You are a helpful assistant.|user: Hello|assistant: "
           (Stub.tokens 1 "system: You are a helpful assistant.|user: Hello|assistant: ")
           "Hello" (Stub.tokens 1 "Hello"));
    try reflexivity; vm_compute; intros; discriminate.
Defined.

(** ** Runtime failures *)






(** ** The lifecycle and the monitoring endpoints *)

Lemma lifespan_startup_loaded config load w mdl tok :
  gave (load (Config.model_id config)) = inr (mdl, tok) ->
  let now := (clock w + took (load (Config.model_id config)))%Q in
  lifespan_startup config load w =
    (inr tt,
     mk_world
       (ModelState.mk (Some mdl) (Some tok) (Config.model_id config)
          (now - clock w)%Q now
          (ModelState.request_count (state w))
          (ModelState.total_tokens_generated (state w)))
       now
       (trace w ++ [mk_event (LoadModel (Config.model_id config)) (clock w) now])).
Proof.
  intros E. unfold lifespan_startup, call_load, try_except_any, bind, time_time, invoke.
  rewrite E. reflexivity.
Qed.

(** Any [Exception] the load raises, an [HTTPException] included, is wrapped;
    a [BaseException] that is not an [Exception] leaves [lifespan] as it is.
    Either way nothing was written to the state. *)
Lemma lifespan_startup_failed config load w e :
  gave (load (Config.model_id config)) = inl e ->
  exists w',
    lifespan_startup config load w
      = (inl (match e with
              | Py.BaseException m => Py.BaseException m
              | _ => Py.Exception ("Model loading failed: " ++ Py.str_exn e)%string
              end), w') /\
    state w' = state w.
Proof.
  intros E.
  unfold lifespan_startup, call_load, try_except_any, bind, time_time, invoke, raise.
  rewrite E. destruct e as [c d|m|m]; eexists; split; reflexivity.
Qed.

Lemma lifespan_shutdown_clears w :
  exists w',
    lifespan_shutdown w = (inr tt, w') /\
    ModelState.model (state w') = None /\
    ModelState.tokenizer (state w') = None /\
    ModelState.start_time (state w') = ModelState.start_time (state w).
Proof.
  eexists. repeat split; reflexivity.
Qed.

(** What [/health] says at clock [later] about the state a successful
    startup left behind, and about a state no load ever touched. *)
Lemma health_check_after_startup config load w mdl tok later :
  gave (load (Config.model_id config)) = inr (mdl, tok) ->
  ~ (clock w + took (load (Config.model_id config)) == 0)%Q ->
  exists w1 report,
    lifespan_startup config load w = (inr tt, w1) /\
    fst (health_check (mk_world (state w1) later (trace w1))) = inr report /\
    HealthResponse.status report = "healthy" /\
    HealthResponse.uptime_seconds report
      = (later - (clock w + took (load (Config.model_id config))))%Q.
Proof.
  intros E N. rewrite (lifespan_startup_loaded config load w mdl tok E). cbv zeta.
  do 2 eexists. split; [reflexivity|].
  unfold health_check, bind, get_state, time_time, ret. cbn [fst state clock].
  split; [reflexivity|]. split; [reflexivity|].
  cbn [HealthResponse.uptime_seconds ModelState.start_time].
  apply truthy_iff in N. rewrite N. reflexivity.
Qed.

Lemma health_check_never_loaded later :
  exists report,
    fst (health_check (mk_world ModelState.initial later [])) = inr report /\
    HealthResponse.status report = "unhealthy" /\
    HealthResponse.model_loaded report = false /\
    HealthResponse.uptime_seconds report = 0%Q.
Proof.
  eexists. repeat split; reflexivity.
Qed.

(** C8 -- [health_check] always returns, and changes nothing.  Its [status]
    is ["healthy"] exactly when a model is loaded, and that is what
    [model_loaded] says too.  Its [uptime_seconds] is the clock minus
    [start_time] once [start_time] has been set (at the end of a successful
    load), and 0 while it still has its initial value 0. *)
Theorem health_check_reports w :
  exists report,
    health_check w = (inr report, w) /\
    (HealthResponse.status report = "healthy" <-> ModelState.model (state w) <> None) /\
    (HealthResponse.status report = "healthy" <-> HealthResponse.model_loaded report = true) /\
    (~ (ModelState.start_time (state w) == 0)%Q ->
     HealthResponse.uptime_seconds report = (clock w - ModelState.start_time (state w))%Q) /\
    ((ModelState.start_time (state w) == 0)%Q ->
     HealthResponse.uptime_seconds report = 0%Q).
Proof.
  unfold health_check, bind, get_state, time_time, ret.
  eexists. split; [reflexivity|].
  cbn [HealthResponse.status HealthResponse.model_loaded HealthResponse.uptime_seconds].
  repeat split.
  - destruct (ModelState.model (state w)); [discriminate|discriminate].
  - destruct (ModelState.model (state w)); [reflexivity|]. intros N. contradiction.
  - destruct (ModelState.model (state w)); [reflexivity|discriminate].
  - destruct (ModelState.model (state w)); [reflexivity|discriminate].
  - intros N. apply truthy_iff in N. rewrite N. reflexivity.
  - intros E. destruct (Py.truthy (ModelState.start_time (state w))) eqn:T; [|reflexivity].
    apply truthy_iff in T. contradiction.
Qed.

(** Before the load: unhealthy, uptime 0.  After a load that ended at
    1700000000, asked 100 seconds later: healthy, uptime 100. *)
Lemma health_check_reports_witness :
  (exists report,
      health_check (Stub.starting 1700000000) = (inr report, Stub.starting 1700000000) /\
      HealthResponse.status report <> "healthy" /\
      HealthResponse.uptime_seconds report = 0%Q) /\
  (let w := Stub.serving (Stub.echo 1 "Hello") (Stub.tokenizer 0 0 1) 1700000100 in
   exists report,
     health_check w = (inr report, w) /\
     HealthResponse.status report = "healthy" /\
     HealthResponse.uptime_seconds report = (1700000100 - 1700000000)%Q).
Proof.
  split.
  - destruct (health_check_reports (Stub.starting 1700000000))
      as (report & E & S & _ & _ & U).
    exists report. split; [exact E|]. split.
    + intros H. apply S in H. apply H. reflexivity.
    + apply U. reflexivity.
  - cbv zeta.
    destruct (health_check_reports
                (Stub.serving (Stub.echo 1 "Hello") (Stub.tokenizer 0 0 1) 1700000100))
      as (report & E & S & _ & U & _).
    exists report. split; [exact E|]. split.
    + apply S. discriminate.
    + apply U. discriminate.
Defined.

(** C10 -- With [start_time] still at its initial 0, [get_stats] reports the
    clock itself as [uptime_seconds] (the seconds since the epoch), where
    [health_check] reports 0. *)
Theorem stats_uptime_unguarded w :
  ModelState.start_time (state w) = 0%Q ->
  exists st report,
    get_stats w = (inr st, w) /\
    health_check w = (inr report, w) /\
    uptime_seconds st = (clock w - 0)%Q /\
    (uptime_seconds st == clock w)%Q /\
    HealthResponse.uptime_seconds report = 0%Q /\
    (~ (clock w == 0)%Q -> ~ (uptime_seconds st == HealthResponse.uptime_seconds report)%Q).
Proof.
  intros E.
  unfold get_stats, health_check, bind, get_state, time_time, ret. rewrite E.
  do 2 eexists. split; [reflexivity|]. split; [reflexivity|].
  change (Py.truthy 0) with false.
  cbn [uptime_seconds HealthResponse.uptime_seconds].
  split; [reflexivity|]. split; [ring|]. split; [reflexivity|].
  intros N H. apply N. rewrite <- H. ring.
Qed.

Lemma stats_uptime_unguarded_witness :
  ModelState.start_time (state (Stub.starting 1700000000)) = 0%Q /\
  exists st report,
    get_stats (Stub.starting 1700000000) = (inr st, Stub.starting 1700000000) /\
    health_check (Stub.starting 1700000000) = (inr report, Stub.starting 1700000000) /\
    uptime_seconds st = (1700000000 - 0)%Q /\
    (uptime_seconds st == 1700000000)%Q /\
    HealthResponse.uptime_seconds report = 0%Q /\
    (~ (1700000000 == 0)%Q ->
     ~ (uptime_seconds st == HealthResponse.uptime_seconds report)%Q).
Proof.
  split; [reflexivity|].
  apply (stats_uptime_unguarded (Stub.starting 1700000000)). reflexivity.
Defined.

End Facts.

(** * Further behaviour of the server *)

Module Behaviour.

Import Runtime Server Paths Session Facts.

Local Open Scope string_scope.
Local Open Scope list_scope.

(** ** One request *)

Lemma handled_frame config request w mdl tok r w' :
  handled config request w mdl tok r w' ->
  same_runtime (state w) (state w').
Proof.
  intros H. destruct H; repeat split; reflexivity.
Qed.

Lemma len_nonneg {A} (xs : list A) : 0 <= len xs.
Proof. unfold len. apply Nat2Z.is_nonneg. Qed.

Lemma handled_tokens_nonneg config request w mdl tok a w' :
  handled config request w mdl tok (inr a) w' ->
  0 <= GenerateResponse.tokens_generated a.
Proof.
  intros H. inversion H; subst. cbn [GenerateResponse.tokens_generated].
  apply len_nonneg.
Qed.

(** What one request at the endpoint does to the state.  A response whose
    serialisation failed has had its tokens counted, though the reply does
    not show them. *)
Lemma post_generate_step config serialise body w r w' :
  post_generate config serialise body w = (r, w') ->
  same_runtime (state w) (state w') /\
  0 <= reply_tokens r /\
  tokens w + reply_tokens r <= tokens w' /\
  (is_unhandled r = false -> tokens w' = tokens w + reply_tokens r) /\
  requests w' = requests w + (if ready (state w) && from_handler r then 1 else 0).
Proof.
  unfold post_generate.
  destruct (GenerateRequest.validate body) as [fields|request].
  { intros E. injection E as <- <-. rewrite andb_false_r.
    cbn [reply_tokens]. repeat split; lia. }
  destruct (generate_response config request w) as [o v] eqn:G.
  destruct (ready (state w)) eqn:R.
  - pose proof R as R'. apply ready_true in R' as (mdl & tok & Hm & Ht).
    apply (generate_response_handled config request w mdl tok Hm Ht) in G.
    pose proof (handled_counters _ _ _ _ _ _ _ G) as [Hr Hk].
    pose proof (handled_frame _ _ _ _ _ _ _ G) as F.
    destruct o as [e|a].
    + destruct (handled_raises _ _ _ _ _ _ _ G) as [(c & d & ->)|(m & ->)];
        cbn [answer]; intros E; injection E as <- <-;
        cbn [reply_tokens from_handler andb];
        (split; [exact F|]); (split; [lia|]); (split; [lia|]);
        (split; [intros _; lia|exact Hr]).
    + pose proof (handled_tokens_nonneg _ _ _ _ _ _ _ G) as N.
      cbn [answer]. unfold global_exception_handler.
      destruct (serialise a); intros E; injection E as <- <-;
        cbn [reply_tokens from_handler andb is_unhandled];
        (split; [exact F|]); (split; [lia|]); (split; [lia|]);
        (split; [intros D; try discriminate D; lia|exact Hr]).
  - rewrite (not_ready_refused config request w R) in G. injection G as <- <-.
    unfold model_not_loaded. cbn [answer].
    intros E. injection E as <- <-. cbn [reply_tokens andb].
    repeat split; lia.
Qed.

Lemma same_runtime_ready s s' : same_runtime s s' -> ready s' = ready s.
Proof.
  intros (Hm & Ht & _). unfold ready. rewrite Hm, Ht. reflexivity.
Qed.

(** X1 -- A request to [/generate], whatever becomes of it, leaves the model,
    the tokenizer, the model identifier, the load time and the start time as
    they were: only [lifespan] writes them.  In particular a server that is
    ready stays ready, and one that is not stays so. *)
Theorem request_keeps_runtime_state config serialise body w :
  let w' := snd (post_generate config serialise body w) in
  same_runtime (state w) (state w') /\
  ready (state w') = ready (state w).
Proof.
  cbv zeta.
  destruct (post_generate config serialise body w) as [r w'] eqn:E. cbn [snd].
  destruct (post_generate_step _ _ _ _ _ _ E) as (F & _).
  split; [exact F|apply same_runtime_ready; exact F].
Qed.

(** X2 -- Neither counter ever goes down: one request raises
    [request_count] by at most one and never lowers
    [total_tokens_generated]. *)
Theorem counters_never_decrease config serialise body w :
  let w' := snd (post_generate config serialise body w) in
  requests w <= requests w' <= requests w + 1 /\
  tokens w <= tokens w'.
Proof.
  cbv zeta.
  destruct (post_generate config serialise body w) as [r w'] eqn:E. cbn [snd].
  destruct (post_generate_step _ _ _ _ _ _ E) as (_ & N & T & _ & R).
  destruct (ready (state w) && from_handler r); lia.
Qed.

(** ** Many requests *)

Lemma serve_cons config serialise body rest w :
  serve config serialise (body :: rest) w =
  (fst (post_generate config serialise body w)
     :: fst (serve config serialise rest (snd (post_generate config serialise body w))),
   snd (serve config serialise rest (snd (post_generate config serialise body w)))).
Proof.
  cbn [serve].
  destruct (post_generate config serialise body w) as [r w1]. cbn [fst snd].
  destruct (serve config serialise rest w1) as [rs w2]. reflexivity.
Qed.

(** X3 -- After any sequence of requests, [request_count] has grown by the
    number of requests that reached the handler: all those that passed
    validation when the model is loaded, none when it is not.
    [total_tokens_generated] has grown by at least the sum of the
    [tokens_generated] of the responses delivered, and by exactly that sum
    when no response failed serialisation: a response that did had its tokens
    counted before.  There is one outcome per request, and the readiness of
    the server is the same at the end. *)
Theorem serve_accumulates config serialise bodies : forall w,
  let replies := fst (serve config serialise bodies w) in
  let w' := snd (serve config serialise bodies w) in
  length replies = length bodies /\
  ready (state w') = ready (state w) /\
  tokens w + total (map reply_tokens replies) <= tokens w' /\
  (forallb (fun r => negb (is_unhandled r)) replies = true ->
   tokens w' = tokens w + total (map reply_tokens replies)) /\
  requests w' =
    requests w
    + (if ready (state w)
       then Z.of_nat (length (filter from_handler replies))
       else 0).
Proof.
  induction bodies as [|body rest IH]; intros w; cbv zeta.
  - cbn [serve fst snd length map total fold_right filter].
    destruct (ready (state w)); repeat split; lia.
  - rewrite serve_cons. cbn [fst snd].
    destruct (post_generate config serialise body w) as [r w1] eqn:E. cbn [fst snd].
    destruct (post_generate_step _ _ _ _ _ _ E) as (F & _ & T & Tx & R).
    pose proof (same_runtime_ready _ _ F) as K.
    specialize (IH w1). cbv zeta in IH. destruct IH as (L & K' & T' & Tx' & R').
    cbn [length map total fold_right filter forallb].
    fold (total (map reply_tokens (fst (serve config serialise rest w1)))).
    split; [rewrite L; reflexivity|].
    split; [rewrite K', K; reflexivity|].
    split; [lia|].
    split.
    + intros A. apply andb_true_iff in A as [A1 A2].
      apply negb_true_iff in A1. specialize (Tx A1). specialize (Tx' A2). lia.
    + rewrite R', R, K.
      destruct (ready (state w)); cbn [andb]; [|lia].
      destruct (from_handler r); cbn [length]; lia.
Qed.

(** Three requests, the second refused by validation: with every response
    delivered ten tokens are counted and ten reported; with serialisation
    failing ten are counted and none reported. *)
Lemma serve_accumulates_witness :
  let w := Stub.serving (Stub.echo 1 "Hello") (Stub.tokenizer 0 0 1) 1700000100 in
  let bodies := [Stub.hello_body None None None; Stub.hello_body (Some 0) None None;
                 Stub.hello_body (Some 7) None None] in
  let failing := Stub.unserialisable "not serialisable" in
  (fst (serve Config.defaults Stub.serialises bodies w)
     = [Returned (GenerateResponse.mk "Hello" 5 1000 "stub-model");
        Unprocessable ["max_tokens"];
        Returned (GenerateResponse.mk "Hello" 5 1000 "stub-model")] /\
   tokens (snd (serve Config.defaults Stub.serialises bodies w)) = tokens w + 10 /\
   requests (snd (serve Config.defaults Stub.serialises bodies w)) = requests w + 2) /\
  (fst (serve Config.defaults failing bodies w)
     = [Unhandled "not serialisable"; Unprocessable ["max_tokens"];
        Unhandled "not serialisable"] /\
   tokens w + 0 <= tokens (snd (serve Config.defaults failing bodies w)) /\
   tokens (snd (serve Config.defaults failing bodies w)) = 10 /\
   requests (snd (serve Config.defaults failing bodies w)) = requests w + 2).
Proof.
  cbv zeta. split.
  - destruct (serve_accumulates Config.defaults Stub.serialises
                [Stub.hello_body None None None; Stub.hello_body (Some 0) None None;
                 Stub.hello_body (Some 7) None None]
                (Stub.serving (Stub.echo 1 "Hello") (Stub.tokenizer 0 0 1) 1700000100))
      as (_ & _ & _ & T & R).
    assert (E : fst (serve Config.defaults Stub.serialises
                       [Stub.hello_body None None None; Stub.hello_body (Some 0) None None;
                        Stub.hello_body (Some 7) None None]
                       (Stub.serving (Stub.echo 1 "Hello") (Stub.tokenizer 0 0 1) 1700000100))
                = [Returned (GenerateResponse.mk "Hello" 5 1000 "stub-model");
                   Unprocessable ["max_tokens"];
                   Returned (GenerateResponse.mk "Hello" 5 1000 "stub-model")])
      by (vm_compute; reflexivity).
    rewrite E in T, R. split; [exact E|]. split.
    + apply T. reflexivity.
    + exact R.
  - destruct (serve_accumulates Config.defaults (Stub.unserialisable "not serialisable")
                [Stub.hello_body None None None; Stub.hello_body (Some 0) None None;
                 Stub.hello_body (Some 7) None None]
                (Stub.serving (Stub.echo 1 "Hello") (Stub.tokenizer 0 0 1) 1700000100))
      as (_ & _ & T & _ & R).
    assert (E : fst (serve Config.defaults (Stub.unserialisable "not serialisable")
                       [Stub.hello_body None None None; Stub.hello_body (Some 0) None None;
                        Stub.hello_body (Some 7) None None]
                       (Stub.serving (Stub.echo 1 "Hello") (Stub.tokenizer 0 0 1) 1700000100))
                = [Unhandled "not serialisable"; Unprocessable ["max_tokens"];
                   Unhandled "not serialisable"])
      by (vm_compute; reflexivity).
    rewrite E in T, R. split; [exact E|]. split; [exact T|].
    split; [vm_compute; reflexivity|exact R].
Defined.

(** ** The request body *)

Lemma all_messages_inv raw messages :
  GenerateRequest.all_messages raw = Some messages -> raw = map Some messages.
Proof.
  revert messages. induction raw as [|[m|] raw IH]; intros messages E.
  - injection E as <-. reflexivity.
  - cbn [GenerateRequest.all_messages] in E.
    destruct (GenerateRequest.all_messages raw) as [ms|]; [|discriminate E].
    injection E as <-. cbn [map]. rewrite (IH ms eq_refl). reflexivity.
  - discriminate E.
Qed.

Lemma all_messages_malformed raw :
  In None raw -> GenerateRequest.all_messages raw = None.
Proof.
  induction raw as [|[m|] raw IH]; intros I.
  - destruct I.
  - destruct I as [I|I]; [discriminate I|].
    cbn [GenerateRequest.all_messages]. rewrite (IH I). reflexivity.
  - reflexivity.
Qed.

Lemma validate_inr body request :
  GenerateRequest.validate body = inr request ->
  GenerateRequest.errors body = [] /\
  GenerateRequest.body_messages body = Some (map Some (GenerateRequest.messages request)) /\
  GenerateRequest.max_tokens request
    = GenerateRequest.with_default GenerateRequest.default_max_tokens
        (GenerateRequest.body_max_tokens body) /\
  GenerateRequest.temperature request
    = GenerateRequest.with_default GenerateRequest.default_temperature
        (GenerateRequest.body_temperature body) /\
  GenerateRequest.top_p request
    = GenerateRequest.with_default GenerateRequest.default_top_p
        (GenerateRequest.body_top_p body).
Proof.
  unfold GenerateRequest.validate.
  destruct (GenerateRequest.errors body) as [|f fs]; [|discriminate].
  unfold GenerateRequest.validated_messages.
  destruct (GenerateRequest.body_messages body) as [raw|]; [|discriminate].
  destruct (GenerateRequest.all_messages raw) as [ms|] eqn:A; [|discriminate].
  intros E. injection E as <-. cbn [GenerateRequest.messages].
  rewrite (all_messages_inv raw ms A). repeat split; reflexivity.
Qed.

Lemma int_in_bounds lo hi v :
  GenerateRequest.int_in lo hi v = true -> lo <= v <= hi.
Proof.
  unfold GenerateRequest.int_in. intros H.
  apply andb_true_iff in H as [H1 H2].
  apply Z.leb_le in H1. apply Z.leb_le in H2. split; assumption.
Qed.

Lemma float_in_bounds lo hi v :
  GenerateRequest.float_in lo hi v = true -> (lo <= v <= hi)%Q.
Proof.
  unfold GenerateRequest.float_in. intros H.
  apply andb_true_iff in H as [H1 H2].
  apply Qle_bool_iff in H1. apply Qle_bool_iff in H2. split; assumption.
Qed.

Lemma validated_bounds body request :
  GenerateRequest.validate body = inr request ->
  1 <= GenerateRequest.max_tokens request <= 2048 /\
  (0 <= GenerateRequest.temperature request <= 2)%Q /\
  (0 <= GenerateRequest.top_p request <= 1)%Q.
Proof.
  intros V. destruct (validate_inr body request V) as (E & _ & -> & -> & ->).
  unfold GenerateRequest.errors in E.
  apply app_eq_nil in E as [_ E].
  apply app_eq_nil in E as [E1 E].
  apply app_eq_nil in E as [E2 E3].
  split; [|split].
  - apply int_in_bounds.
    destruct (GenerateRequest.int_in 1 2048 _); [reflexivity|discriminate E1].
  - apply float_in_bounds.
    destruct (GenerateRequest.float_in 0 2 _); [reflexivity|discriminate E2].
  - apply float_in_bounds.
    destruct (GenerateRequest.float_in 0 1 _); [reflexivity|discriminate E3].
Qed.

(** X4 -- A request object that came out of validation carries the body's
    messages unchanged, every one of them well-formed, each number the body
    gave or else its default (512, 0.7, 0.9), and every number within its
    declared bounds: the handler never sees a [max_tokens] outside 1..2048, a
    [temperature] outside 0..2 or a [top_p] outside 0..1. *)
Theorem validated_request_in_range body request :
  GenerateRequest.validate body = inr request ->
  GenerateRequest.body_messages body = Some (map Some (GenerateRequest.messages request)) /\
  GenerateRequest.max_tokens request
    = match GenerateRequest.body_max_tokens body with Some m => m | None => 512 end /\
  GenerateRequest.temperature request
    = match GenerateRequest.body_temperature body with Some t => t | None => 7 # 10 end /\
  GenerateRequest.top_p request
    = match GenerateRequest.body_top_p body with Some p => p | None => 9 # 10 end /\
  1 <= GenerateRequest.max_tokens request <= 2048 /\
  (0 <= GenerateRequest.temperature request <= 2)%Q /\
  (0 <= GenerateRequest.top_p request <= 1)%Q.
Proof.
  intros V.
  destruct (validate_inr body request V) as (_ & M & Em & Et & Ep).
  destruct (validated_bounds body request V) as (Bm & Bt & Bp).
  split; [exact M|]. split; [exact Em|]. split; [exact Et|]. split; [exact Ep|].
  split; [exact Bm|]. split; [exact Bt|exact Bp].
Qed.

(** The largest [max_tokens] and the smallest [temperature] allowed. *)
Lemma validated_request_in_range_witness :
  let body := Stub.hello_body (Some 2048) (Some 0%Q) None in
  let request :=
    GenerateRequest.mk
      [Message.mk "system" "You are a helpful assistant."; Message.mk "user" "Hello"]
      2048 0 (9 # 10) in
  GenerateRequest.validate body = inr request /\
  GenerateRequest.body_messages body = Some (map Some (GenerateRequest.messages request)) /\
  GenerateRequest.max_tokens request = 2048 /\
  GenerateRequest.temperature request = 0%Q /\
  GenerateRequest.top_p request = 9 # 10 /\
  1 <= GenerateRequest.max_tokens request <= 2048 /\
  (0 <= GenerateRequest.temperature request <= 2)%Q /\
  (0 <= GenerateRequest.top_p request <= 1)%Q.
Proof.
  cbv zeta. split; [reflexivity|].
  apply (validated_request_in_range (Stub.hello_body (Some 2048) (Some 0%Q) None)).
  reflexivity.
Defined.

(** X5 -- A body without [messages] is refused by validation (422), the
    missing field being reported, whatever its other fields hold; the handler
    is not entered and the world stays as it was. *)
Theorem missing_messages_unprocessable config serialise body w :
  GenerateRequest.body_messages body = None ->
  exists fields,
    In "messages" fields /\
    post_generate config serialise body w = (Unprocessable fields, w).
Proof.
  intros H.
  assert (I : In "messages" (GenerateRequest.errors body)).
  { unfold GenerateRequest.errors, GenerateRequest.validated_messages.
    rewrite H. left. reflexivity. }
  exists (GenerateRequest.errors body). split; [exact I|].
  unfold post_generate. rewrite validate_errors; [reflexivity|].
  intros E. rewrite E in I. exact I.
Qed.

Lemma missing_messages_unprocessable_witness :
  let body := GenerateRequest.mk_body None (Some 50) None None in
  let w := Stub.serving (Stub.echo 1 "Hello") (Stub.tokenizer 2 (1 # 2) 1) 1700000100 in
  GenerateRequest.body_messages body = None /\
  exists fields,
    In "messages" fields /\
    post_generate Config.defaults Stub.serialises body w = (Unprocessable fields, w).
Proof.
  cbv zeta. split; [reflexivity|].
  apply (missing_messages_unprocessable Config.defaults Stub.serialises
           (GenerateRequest.mk_body None (Some 50) None None)).
  reflexivity.
Defined.

(** X15 -- A body one of whose messages does not validate as a [Message] (a
    missing [role], a [content] that is no string) is refused by validation
    (422) with [messages] reported, wherever in the list the element stands
    and whatever the other fields hold; the handler is not entered and the
    world stays as it was. *)
Theorem malformed_message_unprocessable config serialise body raw w :
  GenerateRequest.body_messages body = Some raw ->
  In None raw ->
  exists fields,
    In "messages" fields /\
    post_generate config serialise body w = (Unprocessable fields, w).
Proof.
  intros H M.
  assert (I : In "messages" (GenerateRequest.errors body)).
  { unfold GenerateRequest.errors, GenerateRequest.validated_messages.
    rewrite H, (all_messages_malformed raw M). left. reflexivity. }
  exists (GenerateRequest.errors body). split; [exact I|].
  unfold post_generate. rewrite validate_errors; [reflexivity|].
  intros E. rewrite E in I. exact I.
Qed.

Lemma malformed_message_unprocessable_witness :
  let raw := [Some (Message.mk "user" "Hello"); None] in
  let body := GenerateRequest.mk_body (Some raw) (Some 50) None None in
  let w := Stub.serving (Stub.echo 1 "Hello") (Stub.tokenizer 2 (1 # 2) 1) 1700000100 in
  In None raw /\
  exists fields,
    In "messages" fields /\
    post_generate Config.defaults Stub.serialises body w = (Unprocessable fields, w).
Proof.
  cbv zeta. split; [right; left; reflexivity|].
  apply (malformed_message_unprocessable Config.defaults Stub.serialises
           (GenerateRequest.mk_body (Some [Some (Message.mk "user" "Hello"); None])
              (Some 50) None None)
           [Some (Message.mk "user" "Hello"); None]).
  - reflexivity.
  - right. left. reflexivity.
Defined.

(** ** The calls one request makes *)

(** The calls of a request are an initial part of: render, encode the prompt,
    generate, encode the answer; all four when a response is returned. *)
Lemma request_calls config request w r w' :
  generate_response config request w = (r, w') ->
  exists prompt text made,
    let render := ApplyChatTemplate (messages_of request) in
    let gen := generate_call config request prompt in
    calls w' = calls w ++ made /\
    (made = [] \/ made = [render] \/ made = [render; Encode prompt]
     \/ made = [render; Encode prompt; gen]
     \/ made = [render; Encode prompt; gen; Encode text]) /\
    (forall a, r = inr a -> made = [render; Encode prompt; gen; Encode text]).
Proof.
  intros G. destruct (ready (state w)) eqn:R.
  - apply ready_true in R as (mdl & tok & Hm & Ht).
    apply (generate_response_handled config request w mdl tok Hm Ht) in G.
    destruct (handled_calls _ _ _ _ _ _ _ G) as (prompt & text & C). cbv zeta in C.
    exists prompt, text. destruct r as [e|a].
    + destruct C as [C|[C|[C|C]]]; eexists; cbv zeta;
        (split; [exact C|]); (split; [tauto|discriminate]).
    + eexists. cbv zeta. split; [exact C|]. split; [tauto|]. reflexivity.
  - rewrite (not_ready_refused config request w R) in G. injection G as <- <-.
    exists "", "", []. cbv zeta. split; [symmetry; apply app_nil_r|].
    split; [tauto|discriminate].
Qed.

Lemma answer_returned serialise o a :
  answer serialise o = Returned a -> o = inr a /\ serialise a = None.
Proof.
  destruct o as [[c d|m|m]|b]; cbn [answer]; unfold global_exception_handler;
    try discriminate.
  destruct (serialise b) eqn:S; [discriminate|].
  intros E. injection E as <-. split; [reflexivity|exact S].
Qed.

(** The same for the endpoint; a body refused by validation makes no call. *)
Lemma endpoint_calls config serialise body w :
  exists prompt text made,
    calls (snd (post_generate config serialise body w)) = calls w ++ made /\
    (made = [] \/
     exists request,
       GenerateRequest.validate body = inr request /\
       let render := ApplyChatTemplate (messages_of request) in
       let gen := generate_call config request prompt in
       (made = [render] \/ made = [render; Encode prompt]
        \/ made = [render; Encode prompt; gen]
        \/ made = [render; Encode prompt; gen; Encode text]) /\
       (forall a, fst (post_generate config serialise body w) = Returned a ->
                  made = [render; Encode prompt; gen; Encode text])) /\
    (forall a, fst (post_generate config serialise body w) = Returned a -> made <> []).
Proof.
  unfold post_generate.
  destruct (GenerateRequest.validate body) as [fields|request] eqn:V.
  { exists "", "", []. cbn [fst snd]. split; [symmetry; apply app_nil_r|].
    split; [left; reflexivity|discriminate]. }
  destruct (generate_response config request w) as [r w'] eqn:G.
  destruct (request_calls _ _ _ _ _ G) as (prompt & text & made & C & S & F).
  cbv zeta in C, S, F. cbn [fst snd].
  exists prompt, text, made.
  assert (K : forall a,
             answer serialise r = Returned a ->
             made = [ApplyChatTemplate (messages_of request); Encode prompt;
                     generate_call config request prompt; Encode text]).
  { intros a E. apply answer_returned in E as [-> _]. apply (F a). reflexivity. }
  split; [exact C|]. split.
  - destruct S as [S|S]; [left; exact S|].
    right. exists request. split; [reflexivity|]. cbv zeta. split; [exact S|exact K].
  - intros a E. rewrite (K a E). discriminate.
Qed.

(** *** The model is only ever applied to what the trace shows *)

Lemma entered_with_model mdl' w :
  entered (with_model mdl' w) = with_model mdl' (entered w).
Proof. reflexivity. Qed.

(** The [try] block run with another model loaded, one that generates alike
    at the clamped [max_tokens] and the request's [temperature] and [top_p],
    ends the same way and leaves the same world, the model apart. *)
Lemma generate_body_with_model config mdl mdl' tok request t v :
  (forall prompt,
      generate mdl tok prompt (clamped config request)
        (GenerateRequest.temperature request) (GenerateRequest.top_p request)
      = generate mdl' tok prompt (clamped config request)
          (GenerateRequest.temperature request) (GenerateRequest.top_p request)) ->
  generate_body config mdl' tok request t (with_model mdl' v)
  = (fst (generate_body config mdl tok request t v),
     with_model mdl' (snd (generate_body config mdl tok request t v))).
Proof.
  intros A.
  unfold generate_body, call_apply_chat_template, call_encode, call_generate, bind, invoke.
  fold (messages_of request). fold (clamped config request).
  cbn [state clock trace with_model].
  destruct (gave (apply_chat_template tok (messages_of request))) as [e|prompt];
    [reflexivity|].
  destruct (gave (encode tok prompt)) as [e|encoded]; [reflexivity|].
  destruct (len encoded >? Config.max_input_tokens config); [reflexivity|].
  rewrite <- (A prompt).
  destruct (gave (generate mdl tok prompt (clamped config request)
                    (GenerateRequest.temperature request)
                    (GenerateRequest.top_p request))) as [e|text];
    [reflexivity|].
  unfold time_time. cbn [fst snd state clock trace].
  destruct (gave (encode tok text)) as [e|encoded']; reflexivity.
Qed.

Lemma generate_response_with_model config request w mdl mdl' :
  ModelState.model (state w) = Some mdl ->
  (forall tok prompt,
      generate mdl tok prompt (clamped config request)
        (GenerateRequest.temperature request) (GenerateRequest.top_p request)
      = generate mdl' tok prompt (clamped config request)
          (GenerateRequest.temperature request) (GenerateRequest.top_p request)) ->
  generate_response config request (with_model mdl' w)
  = (fst (generate_response config request w),
     with_model mdl' (snd (generate_response config request w))).
Proof.
  intros Hm A.
  destruct (ModelState.tokenizer (state w)) as [tok|] eqn:Ht.
  - rewrite (generate_response_entered config request w mdl tok Hm Ht).
    rewrite (generate_response_entered config request (with_model mdl' w) mdl' tok
               eq_refl Ht).
    rewrite !try_except_translated, entered_with_model.
    change (clock (with_model mdl' w)) with (clock w).
    rewrite (generate_body_with_model config mdl mdl' tok request (clock w) (entered w)
               (A tok)).
    destruct (generate_body config mdl tok request (clock w) (entered w)) as [[e|a] v'];
      reflexivity.
  - unfold generate_response, bind, get_state, raise.
    cbn [state with_model ModelState.model ModelState.tokenizer].
    rewrite Hm, Ht. reflexivity.
Qed.

Lemma clamped_in_range config body request :
  GenerateRequest.validate body = inr request ->
  in_range config (clamped config request)
    (GenerateRequest.temperature request) (GenerateRequest.top_p request).
Proof.
  intros V. destruct (validated_bounds body request V) as (Bm & Bt & Bp).
  unfold in_range, clamped. repeat split; try lia; tauto.
Qed.

(** X6 -- Every [generate] call made for a request to the endpoint carries
    sampling parameters within the declared bounds: [temp] in 0..2, [top_p] in
    0..1, and [max_tokens] at most 2048 and at most the server's ceiling, and
    at least 1 when the ceiling is.  The model is applied nowhere else: with
    another model loaded that generates alike on parameters in these bounds,
    every request gets the same reply and leaves the same world behind, the
    model apart. *)
Theorem generate_arguments_in_range config serialise body w mdl mdl' :
  ModelState.model (state w) = Some mdl ->
  agree_in_range config mdl mdl' ->
  let out := post_generate config serialise body w in
  post_generate config serialise body (with_model mdl' w)
    = (fst out, with_model mdl' (snd out)) /\
  exists made,
    calls (snd out) = calls w ++ made /\
    forall prompt m t p,
      In (Generate prompt m t p) made ->
      in_range config m t p.
Proof.
  intros Hm A. cbv zeta. split.
  - unfold post_generate.
    destruct (GenerateRequest.validate body) as [fields|request] eqn:V; [reflexivity|].
    rewrite (generate_response_with_model config request w mdl mdl' Hm).
    + destruct (generate_response config request w) as [r v]. reflexivity.
    + intros tok prompt. apply A. exact (clamped_in_range config body request V).
  - destruct (endpoint_calls config serialise body w) as (prompt & text & made & C & S & _).
    exists made. split; [exact C|].
    intros q m t p I.
    destruct S as [->|(request & V & S & _)]; [destruct I|]. cbv zeta in S.
    assert (J : Generate q m t p = generate_call config request prompt).
    { destruct S as [-> | [-> | [-> | -> ]]]; cbn [In] in I;
        repeat match goal with
               | H : _ \/ _ |- _ => destruct H as [H|H]
               | H : False |- _ => destruct H
               end; try discriminate; symmetry; assumption. }
    unfold generate_call in J. injection J as _ Jm Jt Jp. subst m t p.
    exact (clamped_in_range config body request V).
Qed.

Lemma parrots_agree seconds :
  agree_in_range Config.defaults (Stub.parrot seconds) (Stub.parrot_up_to 1024 seconds).
Proof.
  intros tok prompt m t p (_ & H & _). cbn [Config.max_output_tokens Config.defaults] in H.
  cbn [generate Stub.parrot Stub.parrot_up_to].
  apply Z.leb_le in H. rewrite H. reflexivity.
Qed.

(** Two models that answer with the [max_tokens] they were handed, one of
    them only up to the ceiling of 1024: asked for 2000 tokens, both answer
    ["1024"]. *)
Lemma generate_arguments_in_range_witness :
  let tok := Stub.tokenizer 2 (1 # 2) 1 in
  let w := Stub.serving (Stub.parrot 1) tok 1700000100 in
  let body := Stub.hello_body (Some 2000) None None in
  let out := post_generate Config.defaults Stub.serialises body w in
  fst out = Returned (GenerateResponse.mk "1024" 4 3500 "stub-model") /\
  post_generate Config.defaults Stub.serialises body
    (with_model (Stub.parrot_up_to 1024 1) w)
    = (fst out, with_model (Stub.parrot_up_to 1024 1) (snd out)) /\
  exists made,
    calls (snd out) = calls w ++ made /\
    forall prompt m t p,
      In (Generate prompt m t p) made ->
      in_range Config.defaults m t p.
Proof.
  cbv zeta. split; [vm_compute; reflexivity|].
  exact (generate_arguments_in_range Config.defaults Stub.serialises
           (Stub.hello_body (Some 2000) None None)
           (Stub.serving (Stub.parrot 1) (Stub.tokenizer 2 (1 # 2) 1) 1700000100)
           (Stub.parrot 1) (Stub.parrot_up_to 1024 1) eq_refl (parrots_agree 1)).
Defined.

(** X7 -- For one request the handler calls [generate] at most once, exactly
    once when it returns a response, never calls [load], and makes at most
    four calls into the runtime in all. *)
Theorem one_generate_call_at_most config serialise body w :
  exists made,
    calls (snd (post_generate config serialise body w)) = calls w ++ made /\
    (length made <= 4)%nat /\
    (length (filter is_generate_call made) <= 1)%nat /\
    filter is_load made = [] /\
    (forall a, fst (post_generate config serialise body w) = Returned a ->
               length (filter is_generate_call made) = 1%nat).
Proof.
  destruct (endpoint_calls config serialise body w) as (prompt & text & made & C & S & N).
  exists made. split; [exact C|].
  destruct S as [->|(request & V & S & F)].
  - cbn. repeat split; try lia. intros a E. exfalso. apply (N a E). reflexivity.
  - cbv zeta in S, F.
    assert (R : forall a, fst (post_generate config serialise body w) = Returned a ->
                          length (filter is_generate_call made) = 1%nat).
    { intros a E. rewrite (F a E). reflexivity. }
    destruct S as [-> | [-> | [-> | -> ]]]; cbn [length filter is_generate_call is_load generate_call];
      (split; [lia|]); (split; [lia|]); (split; [reflexivity|]); exact R.
Qed.

(** X8 -- The length check is strict: a prompt of exactly
    [config.max_input_tokens] tokens is not refused.  The handler goes on to
    apply the model to it, with the clamped [max_tokens] and the request's
    [temperature] and [top_p], and how the request ends is how that
    generation and the encoding of its text end. *)
Theorem prompt_at_limit_is_generated config request w mdl tok prompt encoded :
  ModelState.model (state w) = Some mdl ->
  ModelState.tokenizer (state w) = Some tok ->
  gave (apply_chat_template tok (messages_of request)) = inr prompt ->
  gave (encode tok prompt) = inr encoded ->
  len encoded = Config.max_input_tokens config ->
  let max_tokens :=
    Z.min (GenerateRequest.max_tokens request) (Config.max_output_tokens config) in
  let temp := GenerateRequest.temperature request in
  let top_p := GenerateRequest.top_p request in
  let out := generate_response config request w in
  In (Generate prompt max_tokens temp top_p) (calls (snd out)) /\
  match gave (generate mdl tok prompt max_tokens temp top_p) with
  | inl e => fst out = inl (translated e)
  | inr text =>
      match gave (encode tok text) with
      | inl e => fst out = inl (translated e)
      | inr encoded' =>
          exists ms,
            fst out = inr (GenerateResponse.mk text (len encoded') ms
                             (ModelState.model_id (state w)))
      end
  end.
Proof.
  intros Hm Ht E1 E2 Hlen. cbv zeta.
  destruct (generate_response config request w) as [r v] eqn:G. cbn [fst snd].
  apply (generate_response_handled config request w mdl tok Hm Ht) in G.
  change (Generate prompt
            (Z.min (GenerateRequest.max_tokens request) (Config.max_output_tokens config))
            (GenerateRequest.temperature request) (GenerateRequest.top_p request))
    with (generate_call config request prompt).
  change (Z.min (GenerateRequest.max_tokens request) (Config.max_output_tokens config))
    with (clamped config request).
  inversion G; subst; same_outcome; try lia.
  - split.
    + unfold generated. rewrite calls_advance. apply in_or_app. right. left. reflexivity.
    + match goal with H : gave (generate _ _ _ _ _ _) = _ |- _ => rewrite H end.
      reflexivity.
  - split.
    + unfold recounted, generated. rewrite !calls_advance.
      apply in_or_app. left. apply in_or_app. right. left. reflexivity.
    + repeat match goal with H : gave _ = _ |- _ => rewrite H; clear H end.
      reflexivity.
  - split.
    + unfold recounted, generated.
      change (calls (accounted ?n ?x)) with (calls x). rewrite !calls_advance.
      apply in_or_app. left. apply in_or_app. right. left. reflexivity.
    + repeat match goal with H : gave _ = _ |- _ => rewrite H; clear H end.
      eexists. reflexivity.
Qed.

(** A prompt of 32 characters at 64 tokens each: 2048 tokens, the default
    ceiling.  The model answers with the [max_tokens] it was handed. *)
Lemma prompt_at_limit_is_generated_witness :
  let tok := Stub.tokenizer 0 0 64 in
  let mdl := Stub.parrot 1 in
  let w := Stub.serving mdl tok 1700000100 in
  let request :=
    GenerateRequest.mk [Message.mk "user" "What is MLX-LM"] 2000 (7 # 10) (9 # 10) in
  let prompt := "user: What is MLX-LM|assistant: " in
  let out := generate_response Config.defaults request w in
  len (Stub.tokens 64 prompt) = Config.max_input_tokens Config.defaults /\
  In (Generate prompt 1024 (7 # 10) (9 # 10)) (calls (snd out)) /\
  exists ms,
    fst out = inr (GenerateResponse.mk "1024" (len (Stub.tokens 64 "1024")) ms "stub-model").
Proof.
  cbv zeta. split; [vm_compute; reflexivity|].
  apply (prompt_at_limit_is_generated Config.defaults
           (GenerateRequest.mk [Message.mk "user" "What is MLX-LM"] 2000 (7 # 10) (9 # 10))
           (Stub.serving (Stub.parrot 1) (Stub.tokenizer 0 0 64) 1700000100)
           (Stub.parrot 1) (Stub.tokenizer 0 0 64)
           "user: What is MLX-LM|assistant: "
           (Stub.tokens 64 "user: What is MLX-LM|assistant: "));
    try reflexivity; vm_compute; reflexivity.
Defined.

(** ** Errors *)

(** X9 -- An [HTTPException] raised inside the [try] block, by whichever of
    the four calls into the runtime, is re-raised as it is: its status code
    and detail reach the client unchanged, and it is not turned into a 500. *)
Theorem http_exception_passes_through config request w mdl tok c d :
  ModelState.model (state w) = Some mdl ->
  ModelState.tokenizer (state w) = Some tok ->
  gave (apply_chat_template tok (messages_of request)) = inl (Py.HTTPException c d)
  \/ (exists prompt,
        gave (apply_chat_template tok (messages_of request)) = inr prompt /\
        gave (encode tok prompt) = inl (Py.HTTPException c d))
  \/ (exists prompt encoded,
        gave (apply_chat_template tok (messages_of request)) = inr prompt /\
        gave (encode tok prompt) = inr encoded /\
        len encoded <= Config.max_input_tokens config /\
        gave (generating config request mdl tok prompt) = inl (Py.HTTPException c d))
  \/ (exists prompt encoded text,
        gave (apply_chat_template tok (messages_of request)) = inr prompt /\
        gave (encode tok prompt) = inr encoded /\
        len encoded <= Config.max_input_tokens config /\
        gave (generating config request mdl tok prompt) = inr text /\
        gave (encode tok text) = inl (Py.HTTPException c d)) ->
  exists w',
    generate_response config request w = (inl (Py.HTTPException c d), w').
Proof.
  intros Hm Ht H.
  destruct (generate_response config request w) as [r v] eqn:G.
  exists v. f_equal.
  apply (generate_response_handled config request w mdl tok Hm Ht) in G.
  destruct H as [E1|[(prompt & E1 & E2)|[(prompt & encoded & E1 & E2 & Hle & E3)
                |(prompt & encoded & text & E1 & E2 & Hle & E3 & E4)]]];
    inversion G; subst; same_outcome; try lia;
    repeat match goal with
           | H1 : gave ?r = inl ?a, H2 : gave ?r = inl _ |- _ =>
               rewrite H1 in H2; injection H2 as <-
           end;
    reflexivity.
Qed.

Lemma http_exception_passes_through_witness :
  let tok := Stub.tokenizer 0 0 1 in
  let mdl := Stub.broken 1 (Py.HTTPException 429 "busy") in
  let w := Stub.serving mdl tok 1700000100 in
  (exists prompt encoded,
      gave (apply_chat_template tok (messages_of (Stub.hello 50))) = inr prompt /\
      gave (encode tok prompt) = inr encoded /\
      len encoded <= Config.max_input_tokens Config.defaults /\
      gave (generating Config.defaults (Stub.hello 50) mdl tok prompt)
        = inl (Py.HTTPException 429 "busy")) /\
  exists w',
    generate_response Config.defaults (Stub.hello 50) w
      = (inl (Py.HTTPException 429 "busy"), w').
Proof.
  cbv zeta.
  assert (H : exists prompt encoded,
             gave (apply_chat_template (Stub.tokenizer 0 0 1) (messages_of (Stub.hello 50)))
               = inr prompt /\
             gave (encode (Stub.tokenizer 0 0 1) prompt) = inr encoded /\
             len encoded <= Config.max_input_tokens Config.defaults /\
             gave (generating Config.defaults (Stub.hello 50)
                     (Stub.broken 1 (Py.HTTPException 429 "busy"))
                     (Stub.tokenizer 0 0 1) prompt)
               = inl (Py.HTTPException 429 "busy")).
  { do 2 eexists. split; [reflexivity|]. split; [reflexivity|].
    split; [vm_compute; discriminate|reflexivity]. }
  split; [exact H|].
  apply (http_exception_passes_through Config.defaults (Stub.hello 50)
           (Stub.serving (Stub.broken 1 (Py.HTTPException 429 "busy"))
              (Stub.tokenizer 0 0 1) 1700000100)
           (Stub.broken 1 (Py.HTTPException 429 "busy")) (Stub.tokenizer 0 0 1)
           429 "busy" eq_refl eq_refl).
  right. right. left. exact H.
Defined.

Lemma translated_plain (e : Py.exn) :
  (forall c d, e <> Py.HTTPException c d) ->
  (exists m, translated e = Py.HTTPException 500 m)
  \/ (exists m, translated e = Py.BaseException m).
Proof.
  destruct e as [c d|m|m]; intros N.
  - exfalso. apply (N c d). reflexivity.
  - left. eexists. reflexivity.
  - right. eexists. reflexivity.
Qed.

(** X10 -- With a tokenizer and a model that raise no [HTTPException] of
    their own, [POST /generate] answers with one of five status codes only:
    200, 400, 422, 500, 503.  It answers 503 only when no model is loaded, and
    422 exactly when the body fails validation. *)
Theorem generate_status_codes config serialise body w :
  (forall mdl tok,
      ModelState.model (state w) = Some mdl ->
      ModelState.tokenizer (state w) = Some tok ->
      plain_model mdl /\ plain_tokenizer tok) ->
  let code := status_code_of (fst (post_generate config serialise body w)) in
  In code [200; 400; 422; 500; 503] /\
  (code = 503 -> ready (state w) = false) /\
  (code = 422 <-> exists fields, GenerateRequest.validate body = inl fields).
Proof.
  intros P. cbv zeta. unfold post_generate.
  destruct (GenerateRequest.validate body) as [fields|request] eqn:V.
  { cbn. split; [tauto|]. split; [discriminate|]. split; eauto. }
  assert (V' : (exists fields, @inr (list string) _ request = inl fields) -> False).
  { intros (fields & E). discriminate E. }
  destruct (generate_response config request w) as [r v] eqn:G. cbn [fst].
  destruct (ready (state w)) eqn:R.
  - apply ready_true in R as (mdl & tok & Hm & Ht).
    destruct (P mdl tok Hm Ht) as (Pm & Pr & Pe).
    apply (generate_response_handled config request w mdl tok Hm Ht) in G.
    assert (K : (exists m, r = inl (Py.HTTPException 500 m))
                \/ (exists m, r = inl (Py.HTTPException 400 m))
                \/ (exists m, r = inl (Py.BaseException m))
                \/ (exists a, r = inr a)).
    { inversion G; subst; unfold rendering, counting, generating in *.
      - destruct (translated_plain e) as [(m & ->)|(m & ->)]; [|eauto|eauto 6].
        intros c d ->. eapply Pr; eassumption.
      - destruct (translated_plain e) as [(m & ->)|(m & ->)]; [|eauto|eauto 6].
        intros c d ->. eapply Pe; eassumption.
      - right. left. unfold input_too_long. eauto.
      - destruct (translated_plain e) as [(m & ->)|(m & ->)]; [|eauto|eauto 6].
        intros c d ->. eapply Pm; eassumption.
      - destruct (translated_plain e) as [(m & ->)|(m & ->)]; [|eauto|eauto 6].
        intros c d ->. eapply Pe; eassumption.
      - right. right. right. eauto. }
    assert (C : status_code_of (answer serialise r) = 500
                \/ status_code_of (answer serialise r) = 400
                \/ status_code_of (answer serialise r) = 200).
    { destruct K as [(m & ->)|[(m & ->)|[(m & ->)|(a & ->)]]]; cbn [answer status_code_of];
        try tauto.
      unfold global_exception_handler. destruct (serialise a); cbn [status_code_of]; tauto. }
    split; [cbn [In]; destruct C as [-> | [-> | -> ]]; tauto|].
    split; [intros E; rewrite E in C; destruct C as [C|[C|C]]; discriminate C|].
    split; [intros E; rewrite E in C; destruct C as [C|[C|C]]; discriminate C|].
    intros H; exfalso; exact (V' H).
  - rewrite (not_ready_refused config request w R) in G. injection G as <- <-.
    unfold model_not_loaded.
    cbn [answer status_code_of In]. split; [tauto|]. split; [reflexivity|].
    split; [discriminate|]. intros H; exfalso; exact (V' H).
Qed.

Lemma stub_tokenizer_plain a b n : plain_tokenizer (Stub.tokenizer a b n).
Proof. split; intros; discriminate. Qed.

Lemma stub_echo_plain a text : plain_model (Stub.echo a text).
Proof. intros tok prompt m t p c d. discriminate. Qed.

Lemma generate_status_codes_witness :
  let w := Stub.serving (Stub.echo 1 "Hello") (Stub.tokenizer 2 (1 # 2) 100) 1700000100 in
  let code := status_code_of (fst (post_generate Config.defaults Stub.serialises
                                     (Stub.hello_body None None None) w)) in
  code = 400 /\
  In code [200; 400; 422; 500; 503] /\
  (code = 503 -> ready (state w) = false) /\
  (code = 422 <->
   exists fields, GenerateRequest.validate (Stub.hello_body None None None) = inl fields).
Proof.
  cbv zeta. split; [vm_compute; reflexivity|].
  apply (generate_status_codes Config.defaults Stub.serialises
           (Stub.hello_body None None None)
           (Stub.serving (Stub.echo 1 "Hello") (Stub.tokenizer 2 (1 # 2) 100) 1700000100)).
  intros mdl tok Hm Ht. injection Hm as <-. injection Ht as <-.
  split; [apply stub_echo_plain|apply stub_tokenizer_plain].
Defined.

(** ** The reported time *)

Lemma int_nonneg_bounds (x : Q) :
  (0 <= x)%Q ->
  0 <= Py.int x /\ (inject_Z (Py.int x) <= x)%Q /\ (x < inject_Z (Py.int x + 1))%Q.
Proof.
  intros H. unfold Py.int.
  assert (B : Qle_bool 0 x = true) by (apply Qle_bool_iff; exact H).
  rewrite B. split; [|split].
  - change 0 with (Qfloor (inject_Z 0)) at 1. rewrite Qfloor_Z.
    change 0 with (Qfloor 0). apply Qfloor_resp_le. exact H.
  - apply Qfloor_le.
  - apply Qlt_floor.
Qed.

Lemma span_nonneg (a b : Q) : (a <= b)%Q -> (0 <= (b - a) * 1000)%Q.
Proof.
  intros H. apply Qmult_le_0_compat; [|discriminate].
  unfold Qminus. apply (proj1 (Qle_minus_iff a b)). exact H.
Qed.

(** X11 -- When no call into the runtime ends before it began, the
    [generation_time_ms] of a response is not negative and is the span from
    the handler's entry to the return of [generate], in milliseconds, rounded
    down: it falls short of the true span by less than one millisecond. *)
Theorem generation_time_rounds_down config request w response w' :
  generate_response config request w = (inr response, w') ->
  (forall ev, In ev (trace w') -> (began ev <= ended ev)%Q) ->
  exists gen,
    In gen (trace w') /\
    is_generate gen = true /\
    let ms := GenerateResponse.generation_time_ms response in
    let span_ms := ((ended gen - clock w) * 1000)%Q in
    0 <= ms /\
    (inject_Z ms <= span_ms)%Q /\
    (span_ms < inject_Z (ms + 1))%Q.
Proof.
  intros G Hmon.
  destruct (ready (state w)) eqn:R.
  2:{ rewrite (not_ready_refused config request w R) in G. discriminate G. }
  apply ready_true in R as (mdl & tok & Hm & Ht).
  apply (generate_response_handled config request w mdl tok Hm Ht) in G.
  inversion G as [| | | | |prompt encoded text encoded' E1 E2 Hle E3 E4 Hr Hw].
  subst w'.
  unfold accounted, recounted, generated, counted, rendered, advance, entered in Hmon |- *.
  cbn [trace clock state] in Hmon |- *.
  rewrite <- !app_assoc in Hmon |- *. cbn [app] in Hmon |- *.
  match goal with
  | |- context [trace w ++ [?e1; ?e2; ?e3; ?e4]] =>
      assert (M1 : (began e1 <= ended e1)%Q)
        by (apply Hmon; apply in_or_app; right; cbn [In]; tauto);
      assert (M2 : (began e2 <= ended e2)%Q)
        by (apply Hmon; apply in_or_app; right; cbn [In]; tauto);
      assert (M3 : (began e3 <= ended e3)%Q)
        by (apply Hmon; apply in_or_app; right; cbn [In]; tauto);
      exists e3
  end.
  cbn [began ended] in M1, M2, M3.
  split; [apply in_or_app; right; right; right; left; reflexivity|].
  split; [reflexivity|].
  cbv zeta. cbn [GenerateResponse.generation_time_ms ended].
  apply int_nonneg_bounds. apply span_nonneg.
  eapply Qle_trans; [exact M1|]. eapply Qle_trans; [exact M2|exact M3].
Qed.

Lemma generation_time_rounds_down_witness :
  let w := Stub.serving (Stub.echo (1 # 3) "Hello") (Stub.tokenizer 0 0 1) 1700000100 in
  let out := generate_response Config.defaults (Stub.hello 50) w in
  let response := GenerateResponse.mk "Hello" 5 333 "stub-model" in
  out = (inr response, snd out) /\
  (forall ev, In ev (trace (snd out)) -> (began ev <= ended ev)%Q) /\
  exists gen,
    In gen (trace (snd out)) /\
    is_generate gen = true /\
    0 <= 333 /\
    (inject_Z 333 <= (ended gen - 1700000100) * 1000)%Q /\
    ((ended gen - 1700000100) * 1000 < inject_Z (333 + 1))%Q.
Proof.
  cbv zeta.
  assert (E : generate_response Config.defaults (Stub.hello 50)
                (Stub.serving (Stub.echo (1 # 3) "Hello") (Stub.tokenizer 0 0 1) 1700000100)
              = (inr (GenerateResponse.mk "Hello" 5 333 "stub-model"),
                 snd (generate_response Config.defaults (Stub.hello 50)
                        (Stub.serving (Stub.echo (1 # 3) "Hello") (Stub.tokenizer 0 0 1)
                           1700000100))))
    by (vm_compute; reflexivity).
  assert (Hmon : forall ev,
             In ev (trace (snd (generate_response Config.defaults (Stub.hello 50)
                                  (Stub.serving (Stub.echo (1 # 3) "Hello")
                                     (Stub.tokenizer 0 0 1) 1700000100)))) ->
             (began ev <= ended ev)%Q).
  { intros ev I. vm_compute in I.
    repeat match goal with
           | H : _ \/ _ |- _ => destruct H as [H|H]
           | H : False |- _ => destruct H
           end; subst ev; vm_compute; discriminate. }
  split; [exact E|]. split; [exact Hmon|].
  exact (generation_time_rounds_down Config.defaults (Stub.hello 50) _ _ _ E Hmon).
Defined.

(** ** The lifecycle *)

Lemma ready_counts config request w :
  ready (state w) = true ->
  requests (snd (generate_response config request w)) = requests w + 1.
Proof.
  intros R. apply ready_true in R as (mdl & tok & Hm & Ht).
  destruct (generate_response config request w) as [r v] eqn:G. cbn [snd].
  apply (generate_response_handled config request w mdl tok Hm Ht) in G.
  apply (handled_counters _ _ _ _ _ _ _ G).
Qed.

(** X12 -- When [load] returns, the startup half of [lifespan] publishes the
    model and the tokenizer, records [config.model_id], the seconds the load
    took as [load_time] and the clock at the end of the load as [start_time],
    makes that one call into the runtime and leaves both counters alone; from
    then on a request passes the readiness gate and is counted. *)
Theorem startup_makes_ready config load w mdl tok :
  gave (load (Config.model_id config)) = inr (mdl, tok) ->
  exists w1,
    lifespan_startup config load w = (inr tt, w1) /\
    ModelState.model (state w1) = Some mdl /\
    ModelState.tokenizer (state w1) = Some tok /\
    ModelState.model_id (state w1) = Config.model_id config /\
    (ModelState.load_time (state w1) == took (load (Config.model_id config)))%Q /\
    ModelState.start_time (state w1) = clock w1 /\
    clock w1 = (clock w + took (load (Config.model_id config)))%Q /\
    requests w1 = requests w /\
    tokens w1 = tokens w /\
    calls w1 = calls w ++ [LoadModel (Config.model_id config)] /\
    forall request,
      requests (snd (generate_response config request w1)) = requests w + 1.
Proof.
  intros E. rewrite (lifespan_startup_loaded config load w mdl tok E). cbv zeta.
  eexists. split; [reflexivity|].
  cbn [state clock ModelState.model ModelState.tokenizer ModelState.model_id
       ModelState.load_time ModelState.start_time].
  split; [reflexivity|]. split; [reflexivity|]. split; [reflexivity|].
  split; [ring|]. split; [reflexivity|]. split; [reflexivity|].
  split; [reflexivity|]. split; [reflexivity|].
  split.
  - unfold calls. cbn [trace]. rewrite map_app. reflexivity.
  - intros request. rewrite ready_counts; reflexivity.
Qed.

Lemma startup_makes_ready_witness :
  let load := fun _ : string => returns 2 (Stub.echo 1 "Hello", Stub.tokenizer 0 0 1) in
  let w := Stub.starting 1700000000 in
  exists w1,
    lifespan_startup Config.defaults load w = (inr tt, w1) /\
    ModelState.model (state w1) = Some (Stub.echo 1 "Hello") /\
    ModelState.tokenizer (state w1) = Some (Stub.tokenizer 0 0 1) /\
    ModelState.model_id (state w1) = "mlx-community/Llama-3.2-3B-Instruct-4bit" /\
    (ModelState.load_time (state w1) == 2)%Q /\
    ModelState.start_time (state w1) = clock w1 /\
    clock w1 = (1700000000 + 2)%Q /\
    requests w1 = 0 /\
    tokens w1 = 0 /\
    calls w1 = [LoadModel "mlx-community/Llama-3.2-3B-Instruct-4bit"] /\
    forall request,
      requests (snd (generate_response Config.defaults request w1)) = 1.
Proof.
  cbv zeta.
  apply (startup_makes_ready Config.defaults
           (fun _ : string => returns 2 (Stub.echo 1 "Hello", Stub.tokenizer 0 0 1))
           (Stub.starting 1700000000) (Stub.echo 1 "Hello") (Stub.tokenizer 0 0 1)).
  reflexivity.
Defined.

(** X13 -- When [load] raises an ordinary exception, the startup half of
    [lifespan] raises ["Model loading failed: "] followed by the cause's
    message, after that one call into the runtime, and writes nothing to the
    state: a server that was not ready still refuses every request with 503. *)
Theorem startup_failure_writes_nothing config load w message :
  gave (load (Config.model_id config)) = inl (Py.Exception message) ->
  exists w1,
    lifespan_startup config load w
      = (inl (Py.Exception ("Model loading failed: " ++ message)%string), w1) /\
    state w1 = state w /\
    calls w1 = calls w ++ [LoadModel (Config.model_id config)] /\
    (ready (state w) = false ->
     forall request,
       generate_response config request w1 = (inl model_not_loaded, w1)).
Proof.
  intros E.
  unfold lifespan_startup, call_load, try_except_any, bind, time_time, invoke, raise.
  rewrite E. eexists. split; [reflexivity|]. split; [reflexivity|].
  split.
  - unfold calls. cbn [trace]. rewrite map_app. reflexivity.
  - intros R request. apply not_ready_refused. exact R.
Qed.

Lemma startup_failure_writes_nothing_witness :
  let load := fun _ : string =>
                @raises (Model * Tokenizer) 3 (Py.Exception "no such repository") in
  let w := Stub.starting 1700000000 in
  exists w1,
    lifespan_startup Config.defaults load w
      = (inl (Py.Exception "Model loading failed: no such repository"), w1) /\
    state w1 = ModelState.initial /\
    calls w1 = [LoadModel "mlx-community/Llama-3.2-3B-Instruct-4bit"] /\
    (ready (state w) = false ->
     forall request,
       generate_response Config.defaults request w1 = (inl model_not_loaded, w1)).
Proof.
  cbv zeta.
  apply (startup_failure_writes_nothing Config.defaults
           (fun _ : string => @raises (Model * Tokenizer) 3 (Py.Exception "no such repository"))
           (Stub.starting 1700000000) "no such repository").
  reflexivity.
Defined.



End Behaviour.
